(** * Williams-fractal signal generator and simple backtester

    A shallow embedding of
      - [simulate_trades]  (williams_fractal_trading_simulator.py), and
      - [simple_backtest]  (simple_backtester.py),
    together with the properties their specification states about them,
    followed by
      - [mark_fractals]  (williams_fractal_trading_simulator.py),
      - the percentage-change, moving-average and daily-volume indicators
        of data_manager.py, and
      - the merge of the two API responses in web_scraper/scraper.py,
    with properties read off their code.

    Conventions of the embedding.
      - Prices and every other float64 quantity are exact rationals [Q]:
        rounding is idealised away, and [np.nan] in the nullable [bull]
        column is [None] (every comparison against it is false).
      - Timestamps, signal values and counters are Python/int64 integers,
        embedded in [Z].
      - A pandas DataFrame with its default RangeIndex is the list of its
        rows; [df.Col[i]] outside the index raises [KeyError].
      - Python exceptions are values of [PyError], threaded through the
        error monad [result].  numpy float division by zero does not
        raise (it yields inf or nan with a warning); in [Q] it yields 0.
        No statement below depends on the value of such a quotient. *)

From Stdlib Require Import List ZArith QArith Qabs Bool Lia Lqa Permutation Sorted.
From Stdlib Require String.
Import ListNotations.

Set Implicit Arguments.

(** ** Exceptions and the error monad *)

Inductive PyError : Type :=
| IndexError             (* list / array index out of range *)
| KeyError               (* label missing from a Series index *)
| ValueError_timestamps  (* "Timestamps must be in the DataFrame" *)
| ValueError_broadcast.  (* numpy: operands could not be broadcast together *)

Inductive result (A : Type) : Type :=
| Ok (a : A)
| Raise (e : PyError).
Arguments Ok {A} a.
Arguments Raise {A} e.

Definition bind {A B} (m : result A) (k : A -> result B) : result B :=
  match m with
  | Ok a => k a
  | Raise e => Raise e
  end.

Notation "x <- m ;; k" := (bind m (fun x => k))
  (at level 61, m at next level, right associativity).

(** A [for] loop whose body may raise. *)
Fixpoint for_each {S I} (body : S -> I -> result S) (idx : list I) (s : S)
  : result S :=
  match idx with
  | [] => Ok s
  | i :: rest => s' <- body s i ;; for_each body rest s'
  end.

(** ** Numeric helpers *)

Definition Qltb (x y : Q) : bool := negb (Qle_bool y x).
Definition Qleb (x y : Q) : bool := Qle_bool x y.

(** ** The data frame *)

Record Row : Type := mkRow {
  Time : Z;
  Open : Q;
  High : Q;
  Low : Q;
  Close : Q;
  twenty_ema : Q;
  fifty_ema : Q;
  one_hundred_ema : Q;
  bull : option Q          (* np.nan when no bullish fractal is marked *)
}.

Definition DataFrame := list Row.

(** [df.Col[i]] for every column [Col] at once: the columns share the
    frame's RangeIndex, so the lookups at one label succeed or raise
    together. *)
Definition loc (df : DataFrame) (i : nat) : result Row :=
  match nth_error df i with
  | Some r => Ok r
  | None => Raise KeyError
  end.

Definition BUY : Z := 1%Z.
Definition SELL : Z := (-1)%Z.

(** ** Signal generator: [simulate_trades] *)

Module Simulator.

(** The local variables of [simulate_trades] that live across iterations.
    [stop_loss] and [take_profit] are unbound until the first entry; they
    are only read under [active_trade], which is set after they are bound,
    so their initial value here is never observed. *)
Record State : Type := mkState {
  active_trade : bool;
  stop_loss : Q;
  take_profit : Q;
  timestamps : list Z;
  signals : list Z
}.

Definition init : State :=
  mkState false 0 0 [] [].

(** Lines 62-64: record the sell time and signal. *)
Definition close_trade (st : State) (r : Row) : State :=
  mkState false (stop_loss st) (take_profit st)
          (timestamps st ++ [Time r]) (signals st ++ [SELL]).

(** Lines 71-78 and 82-89: [i += 2], then stop loss, take profit and the
    recorded buy are all read at the shifted index.  [boundary] is the EMA
    column that serves as the stop loss. *)
Definition open_trade (df : DataFrame) (target : Q) (st : State) (i : nat)
           (boundary : Row -> Q) : result State :=
  let i := (i + 2)%nat in
  r <- loc df i ;;
  let stop_loss := boundary r in
  let diff := Qabs (Close r - stop_loss) in
  let take_profit := Close r + diff * target in
  Ok (mkState true stop_loss take_profit
              (timestamps st ++ [Time r]) (signals st ++ [BUY])).

(** A comparison against the nullable [bull] column: false on [np.nan]. *)
Definition bull_le (b : option Q) (x : Q) : bool :=
  match b with Some v => Qleb v x | None => false end.
Definition bull_gt (b : option Q) (x : Q) : bool :=
  match b with Some v => Qltb x v | None => false end.

(** The body of [for i in range(100, len(df) - 2)] (lines 58-89).  The
    rebinding [i += 2] inside the body is local to the iteration: the next
    iteration takes the next element of the range. *)
Definition loop_body (df : DataFrame) (target : Q) (st : State) (i : nat)
  : result State :=
  r <- loc df i ;;
  if active_trade st then
    if Qleb (take_profit st) (High r) || Qltb (Low r) (stop_loss st)
    then Ok (close_trade st r)
    else Ok st
  else
    if Qltb (fifty_ema r) (twenty_ema r)
       && Qltb (one_hundred_ema r) (fifty_ema r)
    then
      if bull_le (bull r) (twenty_ema r) && bull_gt (bull r) (fifty_ema r)
      then open_trade df target st i fifty_ema
      else if bull_le (bull r) (fifty_ema r)
              && bull_gt (bull r) (one_hundred_ema r)
      then open_trade df target st i one_hundred_ema
      else Ok st
    else Ok st.

Definition scan_range (df : DataFrame) : list nat :=
  seq 100 (length df - 2 - 100).

Definition scan (df : DataFrame) (target : Q) : result State :=
  for_each (loop_body df target) (scan_range df) init.

(** [signals[-1]]: raises on the empty list. *)
Definition last_item (l : list Z) : result Z :=
  match l with
  | [] => Raise IndexError
  | _ => Ok (last l 0%Z)
  end.

(** [simulate_trades(df, target)]; [None] is Python's [None]. *)
Definition simulate_trades (df : DataFrame) (target : Q)
  : result (option (list Z * list Z)) :=
  if (length df <? 102)%nat then Ok None
  else
    st <- scan df target ;;
    l <- last_item (signals st) ;;
    if (l =? BUY)%Z
    then Ok (Some (removelast (timestamps st), removelast (signals st)))
    else Ok (Some (timestamps st, signals st)).

End Simulator.

(** ** Backtest engine: [simple_backtest] *)

Module Backtester.

(** *** Sorting the signals

    [np.argsort] returns the permutation of indices that sorts its
    argument.  It is modelled as a stable insertion sort of the indices by
    key; when the keys are pairwise distinct the outcome does not depend on
    the sorting algorithm. *)

Section Sorting.
Context {A : Type} (key : A -> Z).

Fixpoint insert (x : A) (l : list A) : list A :=
  match l with
  | [] => [x]
  | y :: l' => if (key x <=? key y)%Z then x :: l else y :: insert x l'
  end.

Fixpoint sort_by (l : list A) : list A :=
  match l with
  | [] => []
  | x :: l' => insert x (sort_by l')
  end.
End Sorting.

Definition argsort (a : list Z) : list nat :=
  map snd (sort_by fst (combine a (seq 0 (length a)))).

(** [np.array(arr)[idx]]: integer-array indexing. *)
Fixpoint take {A} (arr : list A) (idx : list nat) : result (list A) :=
  match idx with
  | [] => Ok []
  | i :: rest =>
      match nth_error arr i with
      | Some x => xs <- take arr rest ;; Ok (x :: xs)
      | None => Raise IndexError
      end
  end.

(** *** Joining signals to candles *)

(** [pd.merge(df, signal_df, how='left', on='Time')], restricted to the
    columns the replay reads: every frame row, in frame order, once per
    signal row carrying its time (in signal order), or once with a NaN
    signal when there is none. *)
Definition merge_left (df : DataFrame) (signal_df : list (Z * Z))
  : list (Z * Q * option Z) :=
  flat_map
    (fun r =>
       match filter (fun s => (fst s =? Time r)%Z) signal_df with
       | [] => [(Time r, Close r, None)]
       | matches => map (fun s => (Time r, Close r, Some (snd s))) matches
       end)
    df.

(** [merged_df.loc[~np.isnan(merged_df['Signal']), :]], then the
    [zip(times, closes, signals)] of its columns. *)
Fixpoint dropna (rows : list (Z * Q * option Z)) : list (Z * Q * Z) :=
  match rows with
  | [] => []
  | (t, c, Some s) :: rest => (t, c, s) :: dropna rest
  | (_, _, None) :: rest => dropna rest
  end.

(** Line 60: [any([t not in df['Time'].values for t in timestamps])]. *)
Definition missing_timestamp (df : DataFrame) (timestamps : list Z) : bool :=
  existsb (fun t => negb (existsb (Z.eqb t) (map Time df))) timestamps.

(** Lines 60-70 and 87-89: validation, sorting, join. *)
Definition joined_rows (df : DataFrame) (timestamps signals : list Z)
  : result (list (Z * Q * Z)) :=
  if missing_timestamp df timestamps
  then Raise ValueError_timestamps
  else
    let sort_order := argsort timestamps in
    timestamps <- take timestamps sort_order ;;
    signals <- take signals sort_order ;;
    let signal_df := combine timestamps signals in
    let merged_df := merge_left df signal_df in
    Ok (dropna merged_df).

(** *** Replay *)

(** The backtest variables of lines 73-84. *)
Record Account : Type := mkAccount {
  position : bool;
  prev_portfolio_value : Q;
  portfolio_value : Q;
  crypto_value : Q;
  buy_times : list Z;
  sell_times : list Z;
  trade_times : list Z;
  trade_gain_losses : list Q;
  trade_perc_gain_losses : list Q;
  wins : Z;
  trades : Z
}.

Definition init : Account :=
  mkAccount false 100 100 0 [] [] [] [] [] 0%Z 0%Z.

(** One iteration of the replay loop (lines 90-113). *)
Definition step (a : Account) (row : Z * Q * Z) : Account :=
  let '(time, close, signal) := row in
  if negb (position a) && (signal =? BUY)%Z then
    mkAccount true
              (portfolio_value a)
              (portfolio_value a)
              (portfolio_value a / close)
              (buy_times a ++ [time])
              (sell_times a) (trade_times a)
              (trade_gain_losses a) (trade_perc_gain_losses a)
              (wins a) (trades a)
  else if position a && (signal =? SELL)%Z then
    let portfolio_value := crypto_value a * close in
    let gain_loss := portfolio_value - prev_portfolio_value a in
    let perc_gain_loss := gain_loss / prev_portfolio_value a in
    mkAccount false
              (prev_portfolio_value a)
              portfolio_value
              (crypto_value a)
              (buy_times a)
              (sell_times a ++ [time]) (trade_times a ++ [time])
              (trade_gain_losses a ++ [gain_loss])
              (trade_perc_gain_losses a ++ [perc_gain_loss])
              (if Qleb 0 gain_loss then (wins a + 1)%Z else wins a)
              (trades a + 1)%Z
  else a.

Definition replay_from (a : Account) (rows : list (Z * Q * Z)) : Account :=
  fold_left step rows a.

Definition replay (rows : list (Z * Q * Z)) : Account :=
  replay_from init rows.

(** *** Aggregation *)

Definition Qsum (l : list Q) : Q := fold_left Qplus l 0.

(** [np.mean] of a non-empty float array. *)
Definition np_mean (l : list Q) : Q :=
  Qsum l / inject_Z (Z.of_nat (length l)).

(** [a - b] on one-dimensional integer arrays, with numpy's broadcasting:
    equal shapes subtract element by element, a one-element operand is
    stretched over the other, anything else raises. *)
Definition np_sub (a b : list Z) : result (list Z) :=
  if (length a =? length b)%nat
  then Ok (map (fun p => (fst p - snd p)%Z) (combine a b))
  else
    match a, b with
    | [x], _ => Ok (map (fun y => (x - y)%Z) b)
    | _, [y] => Ok (map (fun x => (x - y)%Z) a)
    | _, _ => Raise ValueError_broadcast
    end.

Definition nonempty {A} (l : list A) : bool :=
  match l with [] => false | _ => true end.

(** The dictionary returned by [simple_backtest]; the array-valued keys
    carry the prefix [res_] since they share their names with the locals
    they are built from. *)
Record BacktestResult : Type := mkResult {
  res_buy_times : list Z;
  res_sell_times : list Z;
  res_trade_times : list Z;
  res_trade_gain_losses : list Q;
  res_trade_perc_gain_losses : list Q;
  num_wins : Z;
  win_rate : Q;
  num_trades : Z;
  start_portfolio_value : Q;
  end_portfolio_value : Q;
  percentage_gain : Q;
  avg_perc_gain_per_trade : Q;
  avg_gain_loss_per_trade : Q;
  avg_holding_time : Q
}.

(** Line 137. *)
Definition holding_time (a : Account) : result Q :=
  if nonempty (buy_times a) && nonempty (sell_times a)
  then d <- np_sub (sell_times a) (buy_times a) ;;
       Ok (np_mean (map inject_Z d))
  else Ok 0.

(** Lines 123-139. *)
Definition summarize (a : Account) : result BacktestResult :=
  let win_rate :=
    if (0 <? trades a)%Z then inject_Z (wins a) / inject_Z (trades a) else 0 in
  let avg_perc :=
    if nonempty (trade_perc_gain_losses a)
    then np_mean (trade_perc_gain_losses a) else 0 in
  let avg_gain :=
    if nonempty (trade_gain_losses a)
    then np_mean (trade_gain_losses a) else 0 in
  avg_hold <- holding_time a ;;
  Ok (mkResult (buy_times a) (sell_times a) (trade_times a)
               (trade_gain_losses a) (trade_perc_gain_losses a)
               (wins a) win_rate (trades a)
               100 (portfolio_value a)
               ((portfolio_value a - 100) / 100)
               avg_perc avg_gain avg_hold).

Definition simple_backtest (df : DataFrame) (timestamps signals : list Z)
  : result BacktestResult :=
  rows <- joined_rows df timestamps signals ;;
  summarize (replay rows).

End Backtester.

(** ** Concrete frames *)

Module Scenario.

Definition candle (t : Z) (c : Q) : Row :=
  mkRow t c c c c c c c None.

(** Times [0, 60000, 120000], closes [100, 110, 90]. *)
Definition df_A : DataFrame :=
  [candle 0 100; candle 60000 110; candle 120000 90].

(** Frames for the generator: one-minute candles with the three EMAs held
    at 30 > 20 > 10 and every close at 26.  A [fractal] row marks a bullish
    fractal at its low of 25, inside the fast/mid zone; a [spike] row has a
    high of 40. *)
Definition minute (i : nat) : Z := (60000 * Z.of_nat i)%Z.

Definition quiet (i : nat) : Row :=
  mkRow (minute i) 26 30 (51 # 2) 26 30 20 10 None.
Definition fractal (i : nat) : Row :=
  mkRow (minute i) 26 30 25 26 30 20 10 (Some 25).
Definition spike (i : nat) : Row :=
  mkRow (minute i) 26 40 (51 # 2) 26 30 20 10 None.

(** Scenario A's frame with its first candle repeated at the end. *)
Definition df_repeat : DataFrame :=
  [candle 0 100; candle 60000 110; candle 0 100].

(** 102 rows on which no rule can fire. *)
Definition df_quiet : DataFrame := map quiet (seq 0 102).

(** 300 rows on which no rule fires either, so that the scan does run. *)
Definition df_quiet_long : DataFrame := map quiet (seq 0 300).

(** 109 rows: fractals at rows 100 and 103, spikes at rows 101 and 106. *)
Definition df_reentry : DataFrame :=
  map quiet (seq 0 100)
  ++ [fractal 100; spike 101; quiet 102; fractal 103; quiet 104; quiet 105;
      spike 106; quiet 107; quiet 108].

(** 105 rows: a fractal at row 100 whose trade is never closed. *)
Definition df_open_end : DataFrame :=
  map quiet (seq 0 100)
  ++ [fractal 100; quiet 101; quiet 102; quiet 103; quiet 104].

End Scenario.

(** ** Shapes of signal sequences *)

(** [k] bracketed trades: BUY, SELL repeated [k] times. *)
Fixpoint bracketed (k : nat) : list Z :=
  match k with
  | O => []
  | S k' => bracketed k' ++ [BUY; SELL]
  end.

(** The signals of a (timestamps, signals) pair in ascending order of their
    timestamps. *)
Definition sorted_by_time (out : list Z * list Z) : list Z :=
  map snd (Backtester.sort_by fst (combine (fst out) (snd out))).

(** No two neighbours of the list are equal. *)
Fixpoint alternating (l : list Z) : bool :=
  match l with
  | a :: (b :: _) as rest => negb (a =? b)%Z && alternating rest
  | _ => true
  end.

(** The scan invariant: the emitted signals are whole BUY/SELL brackets,
    followed by one BUY exactly when a trade is active, and the two output
    lists grow together. *)
Definition well_bracketed (st : Simulator.State) : Prop :=
  length (Simulator.timestamps st) = length (Simulator.signals st) /\
  exists k, Simulator.signals st
            = bracketed k ++ (if Simulator.active_trade st then [BUY] else []).

(** ** The entry rule, in the words of the specification *)

(** Trend filter: fast > mid > slow, strictly. *)
Definition trend (r : Row) : Prop :=
  fifty_ema r < twenty_ema r /\ one_hundred_ema r < fifty_ema r.

(** Fast/mid zone: a marked fractal at or below the fast EMA and strictly
    above the mid EMA. *)
Definition fast_mid_zone (r : Row) : Prop :=
  exists b, bull r = Some b /\ b <= twenty_ema r /\ fifty_ema r < b.

(** Mid/slow zone: a marked fractal at or below the mid EMA and strictly
    above the slow EMA. *)
Definition mid_slow_zone (r : Row) : Prop :=
  exists b, bull r = Some b /\ b <= fifty_ema r /\ one_hundred_ema r < b.

(** The state after an entry confirmed on row [r2], with the stop loss on
    the EMA column [boundary]. *)
Definition entered (st : Simulator.State) (target : Q) (boundary : Row -> Q)
           (r2 : Row) : Simulator.State :=
  Simulator.mkState true
    (boundary r2)
    (Close r2 + Qabs (Close r2 - boundary r2) * target)
    (Simulator.timestamps st ++ [Time r2])
    (Simulator.signals st ++ [BUY]).

(** ** Book-keeping of the replay *)

(** What the replay loop maintains: one entry per closed trade in every
    trade list, the trade counter equal to their length, one more buy time
    than sell times exactly while a position is open, and the portfolio
    value untouched until a trade closes. *)
Definition consistent (a : Backtester.Account) : Prop :=
  Backtester.trades a = Z.of_nat (length (Backtester.sell_times a)) /\
  length (Backtester.trade_gain_losses a)
    = length (Backtester.sell_times a) /\
  length (Backtester.trade_perc_gain_losses a)
    = length (Backtester.sell_times a) /\
  Backtester.trade_times a = Backtester.sell_times a /\
  length (Backtester.buy_times a)
    = (length (Backtester.sell_times a)
       + (if Backtester.position a then 1 else 0))%nat /\
  (0 <= Backtester.wins a <= Backtester.trades a)%Z /\
  (Backtester.sell_times a = [] -> Backtester.portfolio_value a = 100).

(** The aggregates of a backtest that closed no trade. *)
Definition zero_summary (r : Backtester.BacktestResult) : Prop :=
  Backtester.num_trades r = 0%Z /\
  Backtester.start_portfolio_value r = 100 /\
  Backtester.end_portfolio_value r = 100 /\
  Backtester.percentage_gain r == 0 /\
  Backtester.win_rate r = 0 /\
  Backtester.avg_perc_gain_per_trade r = 0 /\
  Backtester.avg_gain_loss_per_trade r = 0 /\
  Backtester.avg_holding_time r = 0.

(** The mean holding time over closed trades, in the words of the
    specification: the mean of [sell_time - buy_time] over the closed
    trades (the i-th sell closes the i-th buy), and 0 when none closed. *)
Definition closed_trade_mean (buys sells : list Z) : Q :=
  match sells with
  | [] => 0
  | _ => Backtester.np_mean
           (map (fun p => inject_Z (fst p - snd p)) (combine sells buys))
  end.

(** The candle times of the rows the replay runs over. *)
Definition row_times (rows : list (Z * Q * Z)) : list Z :=
  map (fun row => fst (fst row)) rows.

(** ** Fractal marking: [mark_fractals] *)

Module Fractals.

(** [l[i] = v] on a Python list. *)
Fixpoint list_set {A} (l : list A) (i : nat) (v : A) : result (list A) :=
  match l, i with
  | [], _ => Raise IndexError
  | _ :: t, O => Ok (v :: t)
  | h :: t, S i' => t' <- list_set t i' v ;; Ok (h :: t')
  end.

(** The body of [for i in range(5, len(signal))] (lines 29-35): the
    candle at [i - 3] against the two candles on either side of it. *)
Definition loop_body (signal : DataFrame)
           (st : list (option Q) * list (option Q)) (i : nat)
  : result (list (option Q) * list (option Q)) :=
  let '(bull, bear) := st in
  r3 <- loc signal (i - 3) ;;
  r5 <- loc signal (i - 5) ;;
  r4 <- loc signal (i - 4) ;;
  r2 <- loc signal (i - 2) ;;
  r1 <- loc signal (i - 1) ;;
  let minimum := Low r3 in
  bull <- (if Qltb minimum (Low r5) && Qltb minimum (Low r4)
              && Qltb minimum (Low r2) && Qltb minimum (Low r1)
           then list_set bull (i - 3) (Some minimum)
           else Ok bull) ;;
  let maximum := High r3 in
  bear <- (if Qltb (High r5) maximum && Qltb (High r4) maximum
              && Qltb (High r2) maximum && Qltb (High r1) maximum
           then list_set bear (i - 3) (Some maximum)
           else Ok bear) ;;
  Ok (bull, bear).

(** [mark_fractals(signal)]: both lists start as [len(signal)] NaNs. *)
Definition mark_fractals (signal : DataFrame)
  : result (list (option Q) * list (option Q)) :=
  let n := length signal in
  for_each (loop_body signal) (seq 5 (n - 5)) (repeat None n, repeat None n).

(** The column values the marks are read from. *)
Definition low_at (df : DataFrame) (j : nat) : Q := nth j (map Low df) 0.
Definition high_at (df : DataFrame) (j : nat) : Q := nth j (map High df) 0.

(** Row [j] is a strict 5-candle swing low / swing high. *)
Definition swing_low (df : DataFrame) (j : nat) : bool :=
  Qltb (low_at df j) (low_at df (j - 2)) && Qltb (low_at df j) (low_at df (j - 1))
  && Qltb (low_at df j) (low_at df (j + 1)) && Qltb (low_at df j) (low_at df (j + 2)).
Definition swing_high (df : DataFrame) (j : nat) : bool :=
  Qltb (high_at df (j - 2)) (high_at df j) && Qltb (high_at df (j - 1)) (high_at df j)
  && Qltb (high_at df (j + 1)) (high_at df j) && Qltb (high_at df (j + 2)) (high_at df j).

(** The rows the loop ever examines as a centre: [2 <= j <= len - 4]. *)
Definition examined (df : DataFrame) (j : nat) : bool :=
  (2 <=? j)%nat && (j + 4 <=? length df)%nat.

(** The marks row by row. *)
Definition bull_at (df : DataFrame) (j : nat) : option Q :=
  if examined df j && swing_low df j then Some (low_at df j) else None.
Definition bear_at (df : DataFrame) (j : nat) : option Q :=
  if examined df j && swing_high df j then Some (high_at df j) else None.

(** Loop invariant: the marks after the loop has run over [range(5, m)]. *)
Definition marks (at_ : nat -> option Q) (m : nat) (j : nat) : option Q :=
  if (j + 3 <? m)%nat then at_ j else None.

(** [df['bull'] = fractal[0]] (line 40): the frame with its [bull] column
    replaced. *)
Definition with_bull (df : DataFrame) (bull : list (option Q)) : DataFrame :=
  map (fun p => mkRow (Time (fst p)) (Open (fst p)) (High (fst p))
                      (Low (fst p)) (Close (fst p)) (twenty_ema (fst p))
                      (fifty_ema (fst p)) (one_hundred_ema (fst p)) (snd p))
      (combine df bull).

End Fractals.

(** The replay's money invariant: the portfolio value is the starting 100
    plus the gains and losses of the closed trades, and while a position is
    open the entry reference is the current portfolio value. *)
Definition balanced (a : Backtester.Account) : Prop :=
  Backtester.portfolio_value a
    == 100 + Backtester.Qsum (Backtester.trade_gain_losses a) /\
  (Backtester.position a = true ->
   Backtester.prev_portfolio_value a = Backtester.portfolio_value a) /\
  Backtester.wins a
    = Z.of_nat (length (filter (Qleb 0) (Backtester.trade_gain_losses a))).


(** ** Indicators: data_manager.py *)

Module DataManager.

(** Entries of a float64 column that need not be finite numbers: [None]
    stands for NaN and for the infinities a division by zero yields. *)
Definition column := list (option Q).

(** [Series.shift(k)] for [k >= 0]: [k] NaNs in front, the last [k] values
    dropped, the length kept. *)
Definition shift (k : nat) (l : list Q) : column :=
  firstn (length l) (repeat None k ++ map Some l).

(** [(close - prev) / prev] entry by entry, where [prev] is [close]
    shifted by [k] rows. *)
Definition perc_change (k : nat) (close : list Q) : column :=
  map (fun p => match snd p with
                | Some prev =>
                    if Qeq_bool prev 0 then None
                    else Some ((fst p - prev) / prev)
                | None => None
                end)
      (combine close (shift k close)).

Definition get_1h_perc_change (df : DataFrame) : column :=
  perc_change 60 (map Close df).
Definition get_24h_perc_change (df : DataFrame) : column :=
  perc_change (60 * 24) (map Close df).
Definition get_7d_perc_change (df : DataFrame) : column :=
  perc_change (60 * 24 * 7) (map Close df).

(** [Series.ewm(span=window).mean()] with pandas' defaults
    ([adjust=True]): with [alpha = 2 / (span + 1)], entry [t] is the sum of
    [(1 - alpha)^i * x[t-i]] over the weights' sum, both running over
    [i = 0 .. t].  [num] and [den] are the two sums after the previous
    entry.  pandas rejects a span below 1; [window] is a [positive]. *)
Definition alpha (window : positive) : Q := 2 / (inject_Z (Z.pos window) + 1).

Fixpoint ewm_from (decay num den : Q) (l : list Q) : list Q :=
  match l with
  | [] => []
  | x :: rest =>
      let num' := x + decay * num in
      let den' := 1 + decay * den in
      (num' / den') :: ewm_from decay num' den' rest
  end.

Definition ewm_mean (window : positive) (l : list Q) : list Q :=
  ewm_from (1 - alpha window) 0 0 l.

Definition get_ema_close (df : DataFrame) (window : positive) : list Q :=
  ewm_mean window (map Close df).

(** Two columns hold the same numbers. *)
Definition same_entry (x y : option Q) : Prop :=
  match x, y with
  | Some a, Some b => a == b
  | None, None => True
  | _, _ => False
  end.
Definition same_column (a b : column) : Prop := Forall2 same_entry a b.

(** A frame reduced to the two columns [get_24h_volume] reads, [Time] and
    [Volume]. *)
Definition VolumeFrame : Type := list (Z * Q)%type.

(** [date.dt.hour == 0] and [date.dt.minute == 0], for the date of a Unix
    time in milliseconds. *)
Definition day_start (t : Z) : bool :=
  ((t / 3600000) mod 24 =? 0)%Z && ((t / 60000) mod 60 =? 0)%Z.

(** [Series.cumsum()], continued from a running total; the column itself
    starts from 0, and [0 + x] is [x]. *)
Fixpoint cumsum_from (acc : Q) (l : list Q) : list Q :=
  match l with
  | [] => []
  | x :: rest => (acc + x) :: cumsum_from (acc + x) rest
  end.

(** [Series.ffill()], continued from the last value seen. *)
Fixpoint ffill_from (prev : option Q) (l : column) : column :=
  match l with
  | [] => []
  | Some v :: rest => Some v :: ffill_from (Some v) rest
  | None :: rest => prev :: ffill_from prev rest
  end.

(** [get_24h_volume(df)] (lines 57-69). *)
Definition get_24h_volume (df : VolumeFrame) : column :=
  let mask := map (fun r => day_start (fst r)) df in
  let cumulative_volume := cumsum_from 0 (map snd df) in
  let offset :=
    map (fun p : bool * Q => if fst p then Some (snd p) else None)
        (combine mask cumulative_volume) in
  let offset := ffill_from None offset in
  map (fun p => match snd p with
                | Some o => Some (fst p - o)
                | None => None
                end)
      (combine cumulative_volume offset).

(** The same column computed in one pass: the volume traded after the
    latest day-start row, that row's own volume left out, and NaN before
    the first day-start row. *)
Fixpoint since_day_start (acc : option Q) (df : VolumeFrame) : column :=
  match df with
  | [] => []
  | (t, v) :: rest =>
      let acc' := if day_start t then Some 0
                  else option_map (fun a => a + v) acc in
      acc' :: since_day_start acc' rest
  end.

End DataManager.

(** ** Market data merge: web_scraper/scraper.py *)

Module Scraper.
Import String.

(** The two exceptions the merge can raise, and its outcomes. *)
Inductive Exception : Type :=
| KeyError     (* a dictionary has no such key *)
| TypeError.   (* unhashable value used as a dictionary key *)

Inductive outcome (A : Type) : Type :=
| Return (a : A)
| Throw (e : Exception).
Arguments Return {A} a.
Arguments Throw {A} e.

Definition obind {A B} (m : outcome A) (k : A -> outcome B) : outcome B :=
  match m with
  | Return a => k a
  | Throw e => Throw e
  end.

Notation "x <~ m ;; k" := (obind m (fun x => k))
  (at level 61, m at next level, right associativity).

(** The JSON values of the two API responses.  Arrays and objects are
    opaque to the merge; [JCompound] stands for them. *)
Inductive json : Type :=
| JString (s : string)
| JNumber (q : Q)
| JBool (b : bool)
| JNull
| JCompound (tag : nat).

(** Lists and dicts are not hashable. *)
Definition is_compound (v : json) : bool :=
  match v with JCompound _ => true | _ => false end.

(** Python's [==] on hashable values, as used for dictionary keys: numbers
    by value, with [True == 1] and [False == 0]. *)
Definition numeric (v : json) : option Q :=
  match v with
  | JNumber q => Some q
  | JBool b => Some (if b then 1 else 0)
  | _ => None
  end.

Definition json_eqb (a b : json) : bool :=
  match a, b with
  | JString s, JString t => String.eqb s t
  | JNull, JNull => true
  | JCompound m, JCompound n => Nat.eqb m n
  | _, _ =>
      match numeric a, numeric b with
      | Some p, Some q => Qeq_bool p q
      | _, _ => false
      end
  end.

(** A Python [dict] is the list of its items in insertion order; [eqb] is
    the equality of its keys. *)
Section Dict.
Context {K V : Type} (eqb : K -> K -> bool).

(** [d[k]]. *)
Fixpoint dict_get (d : list (K * V)) (k : K) : outcome V :=
  match d with
  | [] => Throw KeyError
  | (k', v) :: rest => if eqb k k' then Return v else dict_get rest k
  end.

(** [d[k] = v]: the value of an existing key is replaced where it stands,
    a new key goes to the end. *)
Fixpoint dict_set (d : list (K * V)) (k : K) (v : V) : list (K * V) :=
  match d with
  | [] => [(k, v)]
  | (k', v') :: rest =>
      if eqb k k' then (k', v) :: rest else (k', v') :: dict_set rest k v
  end.

(** [d.update(other)], with [other] given by its items. *)
Definition dict_update (d other : list (K * V)) : list (K * V) :=
  fold_left (fun acc p => dict_set acc (fst p) (snd p)) other d.

(** [dict(pairs)] on hashable keys. *)
Definition dict_of_pairs (pairs : list (K * V)) : list (K * V) :=
  dict_update [] pairs.

End Dict.

(** A list comprehension whose element expression may raise. *)
Fixpoint map_outcome {A B} (f : A -> outcome B) (l : list A)
  : outcome (list B) :=
  match l with
  | [] => Return []
  | x :: rest => y <~ f x ;; ys <~ map_outcome f rest ;; Return (y :: ys)
  end.

(** One coin's record: field name to value. *)
Definition record : Type := list (string * json).

Definition id_key : string := "id"%string.

(** [(item['id'], item)] (line 125). *)
Definition id_pair (item : record) : outcome (json * record) :=
  id <~ dict_get String.eqb item id_key ;; Return (id, item).

(** [get_current_market_data] (lines 119-135), with the two responses of
    [get_api_data] passed in: [market_api_response] is the list of records
    of the markets endpoint, [market_data] the object of the price
    endpoint, coin id to record.  The list of pairs of line 125 is built
    in full before [dict] hashes its keys. *)
Definition get_current_market_data
           (market_api_response : list record)
           (market_data : list (string * record))
           (output_keys : list string)
  : outcome (list (string * record)) :=
  pairs <~ map_outcome id_pair market_api_response ;;
  market_dict <~ (if existsb (fun p => is_compound (fst p)) pairs
                  then Throw TypeError
                  else Return (dict_of_pairs json_eqb pairs)) ;;
  market_data <~ map_outcome
                   (fun entry =>
                      item <~ dict_get json_eqb market_dict
                                       (JString (fst entry)) ;;
                      Return (fst entry,
                              dict_update String.eqb (snd entry) item))
                   market_data ;;
  Return (map (fun entry =>
                 (fst entry,
                  filter (fun kv => existsb (String.eqb (fst kv)) output_keys)
                         (snd entry)))
              market_data).

(** The record the markets response holds for a coin id; as in
    [dict(...)], of several records with the same id the last one counts. *)
Definition has_id (coin : string) (item : record) : bool :=
  match dict_get String.eqb item id_key with
  | Return id => json_eqb (JString coin) id
  | Throw _ => false
  end.

Definition item_of (market_api_response : list record) (coin : string)
  : option record :=
  find (has_id coin) (rev market_api_response).

(** The record returned for one entry of the price response, given the
    markets record of the same coin. *)
Definition merged (keys : list string) (entry : string * record)
           (item : record) : string * record :=
  (fst entry,
   filter (fun kv => existsb (String.eqb (fst kv)) keys)
          (dict_update String.eqb (snd entry) item)).

(** A sample: the markets record of one coin and the price record of the
    same coin. *)
Definition sample_coin : string := "bitcoin"%string.

Definition sample_item : record :=
  [("id"%string, JString sample_coin);
   ("name"%string, JString "Bitcoin"%string);
   ("current_price"%string, JNumber 50000);
   ("roi"%string, JNull)].

Definition sample_price : record :=
  [("usd"%string, JNumber 50001); ("usd_24h_vol"%string, JNumber 7)].

Definition sample_markets : list record := [sample_item].

Definition sample_prices : list (string * record) :=
  [(sample_coin, sample_price)].

Definition sample_keys : list string :=
  ["id"%string; "name"%string; "current_price"%string;
   "usd_24h_vol"%string].

End Scraper.

(** * Arithmetic helpers *)

Lemma Qltb_lt x y : Qltb x y = true <-> x < y.
Proof.
  unfold Qltb. rewrite negb_true_iff. split; intro H.
  - apply Qnot_le_lt. intro L. apply Qle_bool_iff in L. congruence.
  - destruct (Qle_bool y x) eqn:E; [|reflexivity].
    apply Qle_bool_iff in E. exfalso. exact (Qlt_not_le _ _ H E).
Qed.

Lemma Qleb_le x y : Qleb x y = true <-> x <= y.
Proof. apply Qle_bool_iff. Qed.

(** * Properties of the signal generator *)

Module SimulatorProps.
Import Simulator.

Lemma loc_defined (df : DataFrame) (i : nat) :
  (i < length df)%nat -> exists r, loc df i = Ok r /\ nth_error df i = Some r.
Proof.
  intro H. unfold loc. destruct (nth_error df i) as [r|] eqn:E.
  - exists r. split; reflexivity.
  - apply nth_error_None in E. lia.
Qed.

Lemma init_well_bracketed : well_bracketed init.
Proof. split; [reflexivity|]. exists O. reflexivity. Qed.

Lemma loop_body_well_bracketed df target st i :
  (i + 2 < length df)%nat ->
  well_bracketed st ->
  exists st', loop_body df target st i = Ok st' /\ well_bracketed st'.
Proof.
  intros Hi [Hlen [k Hk]].
  destruct (@loc_defined df i) as [r [Hr _]]; [lia|].
  destruct (@loc_defined df (i + 2)) as [r2 [Hr2 _]]; [lia|].
  unfold loop_body. rewrite Hr. cbn [bind].
  destruct (active_trade st) eqn:Hact.
  - destruct (Qleb (take_profit st) (High r) || Qltb (Low r) (stop_loss st)).
    + eexists. split; [reflexivity|]. split; cbn.
      * rewrite !length_app, Hlen. reflexivity.
      * exists (S k). rewrite Hk, <- app_assoc, app_nil_r. reflexivity.
    + eexists. split; [reflexivity|]. split; [exact Hlen|].
      exists k. rewrite Hact. exact Hk.
  - assert (Hentry : forall boundary, exists st',
               open_trade df target st i boundary = Ok st' /\ well_bracketed st').
    { intro boundary. unfold open_trade. rewrite Hr2. cbn [bind].
      eexists. split; [reflexivity|]. split; cbn.
      - rewrite !length_app, Hlen. reflexivity.
      - exists k. rewrite Hk, app_nil_r. reflexivity. }
    assert (Hstay : exists st', Ok st = Ok st' /\ well_bracketed st').
    { exists st. split; [reflexivity|]. split; [exact Hlen|].
      exists k. rewrite Hact. exact Hk. }
    destruct (Qltb (fifty_ema r) (twenty_ema r)
              && Qltb (one_hundred_ema r) (fifty_ema r)); [|exact Hstay].
    destruct (bull_le (bull r) (twenty_ema r) && bull_gt (bull r) (fifty_ema r));
      [apply Hentry|].
    destruct (bull_le (bull r) (fifty_ema r)
              && bull_gt (bull r) (one_hundred_ema r));
      [apply Hentry | exact Hstay].
Qed.

Lemma for_each_well_bracketed df target n : forall a st,
  (a + n + 2 <= length df)%nat ->
  well_bracketed st ->
  exists st', for_each (loop_body df target) (seq a n) st = Ok st'
              /\ well_bracketed st'.
Proof.
  induction n as [|n IH]; intros a st Hb Hst; cbn [seq for_each].
  - exists st. split; [reflexivity | exact Hst].
  - destruct (@loop_body_well_bracketed df target st a) as [st1 [E1 W1]];
      [lia | exact Hst |].
    rewrite E1. cbn [bind]. apply IH; [lia | exact W1].
Qed.

(** The scan never raises: every row it reads is inside the frame. *)
Lemma scan_total df target :
  exists st, scan df target = Ok st /\ well_bracketed st.
Proof.
  unfold scan, scan_range.
  destruct (Nat.le_gt_cases (length df - 2 - 100) 0) as [Hs|Hs].
  - replace (length df - 2 - 100)%nat with 0%nat by lia.
    exists init. split; [reflexivity | apply init_well_bracketed].
  - apply for_each_well_bracketed; [lia | apply init_well_bracketed].
Qed.

Lemma bracketed_last k : bracketed k = [] \/ exists l, bracketed k = l ++ [SELL].
Proof.
  destruct k as [|k]; [left; reflexivity|].
  right. exists (bracketed k ++ [BUY]). cbn. rewrite <- app_assoc. reflexivity.
Qed.

Lemma last_item_snoc (l : list Z) (x : Z) : last_item (l ++ [x]) = Ok x.
Proof.
  unfold last_item. rewrite last_last. destruct l; reflexivity.
Qed.

(** What [simulate_trades] returns on a frame of at least 102 rows, in
    terms of the state the scan ends in. *)
Lemma simulate_trades_long df target :
  (102 <= length df)%nat ->
  exists st, scan df target = Ok st /\ well_bracketed st /\
    ((signals st = [] /\ simulate_trades df target = Raise IndexError) \/
     (active_trade st = true /\
      simulate_trades df target =
        Ok (Some (removelast (timestamps st), removelast (signals st)))) \/
     (active_trade st = false /\ signals st <> [] /\
      simulate_trades df target = Ok (Some (timestamps st, signals st)))).
Proof.
  intro Hn. destruct (scan_total df target) as [st [Hs W]].
  exists st. split; [exact Hs|]. split; [exact W|].
  unfold simulate_trades.
  replace (length df <? 102)%nat with false
    by (symmetry; apply Nat.ltb_ge; exact Hn).
  rewrite Hs. cbn [bind].
  destruct W as [_ [k Hk]].
  destruct (active_trade st) eqn:Hact.
  - right; left. split; [reflexivity|].
    rewrite Hk, last_item_snoc. reflexivity.
  - rewrite app_nil_r in Hk. rewrite Hk.
    destruct k as [|k].
    + left. split; reflexivity.
    + right; right. split; [reflexivity|].
      cbn [bracketed]. split.
      * intro E. apply (f_equal (@length Z)) in E.
        rewrite length_app in E. cbn in E. lia.
      * replace (bracketed k ++ [BUY; SELL])
          with ((bracketed k ++ [BUY]) ++ [SELL])
          by (rewrite <- app_assoc; reflexivity).
        rewrite last_item_snoc. reflexivity.
Qed.

Lemma bull_le_iff (b : option Q) (x : Q) :
  bull_le b x = true <-> exists v, b = Some v /\ v <= x.
Proof.
  destruct b as [v|]; cbn.
  - rewrite Qleb_le. split.
    + intro H. exists v. split; [reflexivity | exact H].
    + intros [w [E H]]. inversion E. subst. exact H.
  - split; [discriminate | intros [w [E _]]; discriminate].
Qed.

Lemma bull_gt_iff (b : option Q) (x : Q) :
  bull_gt b x = true <-> exists v, b = Some v /\ x < v.
Proof.
  destruct b as [v|]; cbn.
  - rewrite Qltb_lt. split.
    + intro H. exists v. split; [reflexivity | exact H].
    + intros [w [E H]]. inversion E. subst. exact H.
  - split; [discriminate | intros [w [E _]]; discriminate].
Qed.

Lemma trend_iff (r : Row) :
  Qltb (fifty_ema r) (twenty_ema r) && Qltb (one_hundred_ema r) (fifty_ema r)
  = true <-> trend r.
Proof. unfold trend. rewrite andb_true_iff, !Qltb_lt. reflexivity. Qed.

Lemma fast_mid_zone_iff (r : Row) :
  bull_le (bull r) (twenty_ema r) && bull_gt (bull r) (fifty_ema r) = true
  <-> fast_mid_zone r.
Proof.
  unfold fast_mid_zone. rewrite andb_true_iff, bull_le_iff, bull_gt_iff. split.
  - intros [[v [E1 H1]] [w [E2 H2]]]. rewrite E1 in E2. inversion E2. subst.
    exists w. auto.
  - intros [b [E [H1 H2]]]. split; exists b; auto.
Qed.

Lemma mid_slow_zone_iff (r : Row) :
  bull_le (bull r) (fifty_ema r) && bull_gt (bull r) (one_hundred_ema r) = true
  <-> mid_slow_zone r.
Proof.
  unfold mid_slow_zone. rewrite andb_true_iff, bull_le_iff, bull_gt_iff. split.
  - intros [[v [E1 H1]] [w [E2 H2]]]. rewrite E1 in E2. inversion E2. subst.
    exists w. auto.
  - intros [b [E [H1 H2]]]. split; exists b; auto.
Qed.

Lemma open_trade_entered df target st i boundary r2 :
  nth_error df (i + 2) = Some r2 ->
  open_trade df target st i boundary = Ok (entered st target boundary r2).
Proof. intro H. unfold open_trade, loc. rewrite H. reflexivity. Qed.

Lemma not_true_false (b : bool) (P : Prop) :
  (b = true <-> P) -> ~ P -> b = false.
Proof. intros H N. destruct b; [exfalso; apply N, H; reflexivity | reflexivity]. Qed.

(** C7.  At a scan row [i] reached with no active trade, an entry needs the
    strict trend filter and a marked fractal inside one of the two zones;
    the fast/mid zone is tried first and the mid/slow zone second.  A match
    emits BUY at [time[i+2]], with the stop loss on the zone's boundary EMA
    at row [i+2] and the take profit at
    [close[i+2] + target * |close[i+2] - stop_loss|]; in every other case
    the state is left as it was, in particular whenever
    [ema_fast <= ema_mid], whatever the fractal. *)
Theorem entry_rule df target st i r :
  active_trade st = false ->
  nth_error df i = Some r ->
  (trend r -> fast_mid_zone r -> forall r2,
     nth_error df (i + 2) = Some r2 ->
     loop_body df target st i = Ok (entered st target fifty_ema r2)) /\
  (trend r -> ~ fast_mid_zone r -> mid_slow_zone r -> forall r2,
     nth_error df (i + 2) = Some r2 ->
     loop_body df target st i = Ok (entered st target one_hundred_ema r2)) /\
  (~ (trend r /\ (fast_mid_zone r \/ mid_slow_zone r)) ->
     loop_body df target st i = Ok st) /\
  (twenty_ema r <= fifty_ema r -> loop_body df target st i = Ok st).
Proof.
  intros Hflat Hr.
  assert (Hbody : loop_body df target st i =
    if Qltb (fifty_ema r) (twenty_ema r)
       && Qltb (one_hundred_ema r) (fifty_ema r)
    then
      if bull_le (bull r) (twenty_ema r) && bull_gt (bull r) (fifty_ema r)
      then open_trade df target st i fifty_ema
      else if bull_le (bull r) (fifty_ema r)
              && bull_gt (bull r) (one_hundred_ema r)
      then open_trade df target st i one_hundred_ema
      else Ok st
    else Ok st).
  { unfold loop_body, loc. rewrite Hr, Hflat. reflexivity. }
  assert (Hno : ~ (trend r /\ (fast_mid_zone r \/ mid_slow_zone r)) ->
                loop_body df target st i = Ok st).
  { intro N. rewrite Hbody.
    destruct (Qltb (fifty_ema r) (twenty_ema r)
              && Qltb (one_hundred_ema r) (fifty_ema r)) eqn:T;
      [|reflexivity].
    apply trend_iff in T.
    rewrite (not_true_false (fast_mid_zone_iff r)) by tauto.
    rewrite (not_true_false (mid_slow_zone_iff r)) by tauto.
    reflexivity. }
  repeat split.
  - intros T Z r2 Hr2. rewrite Hbody.
    apply trend_iff in T. apply fast_mid_zone_iff in Z. rewrite T, Z.
    apply open_trade_entered. exact Hr2.
  - intros T NZ Z r2 Hr2. rewrite Hbody.
    apply trend_iff in T. apply mid_slow_zone_iff in Z.
    rewrite T, (not_true_false (fast_mid_zone_iff r) NZ), Z.
    apply open_trade_entered. exact Hr2.
  - exact Hno.
  - intro Hle. apply Hno. intros [[Hlt _] _].
    exact (Qlt_not_le _ _ Hlt Hle).
Qed.

(** The rule applied to row 100 of [Scenario.df_reentry], a fast/mid-zone
    fractal under a bullish trend: the entry is read off row 102. *)
Lemma entry_rule_witness :
  loop_body Scenario.df_reentry (3 # 2) init 100
  = Ok (entered init (3 # 2) fifty_ema (Scenario.quiet 102)).
Proof.
  refine (proj1 (@entry_rule Scenario.df_reentry (3 # 2) init 100
                             (Scenario.fractal 100) eq_refl eq_refl)
                _ _ (Scenario.quiet 102) eq_refl).
  - split; reflexivity.
  - exists 25. repeat split; discriminate.
Defined.

Lemma simulate_trades_short df target :
  (length df < 102)%nat -> simulate_trades df target = Ok None.
Proof.
  intro H. unfold simulate_trades.
  replace (length df <? 102)%nat with true
    by (symmetry; apply Nat.ltb_lt; exact H).
  reflexivity.
Qed.

(** On exactly 102 rows the scan range is empty, so nothing is emitted and
    the inspection of [signals[-1]] raises. *)
Lemma simulate_trades_102 df target :
  length df = 102%nat -> simulate_trades df target = Raise IndexError.
Proof.
  intro H. unfold simulate_trades, scan, scan_range. rewrite H. reflexivity.
Qed.

Lemma bracketed_not_buy_last k : last (bracketed k) SELL <> BUY.
Proof.
  destruct (bracketed_last k) as [E | [l E]]; rewrite E.
  - discriminate.
  - rewrite last_last. discriminate.
Qed.

Lemma length_removelast_snoc {A} (l l' : list A) (x y : A) :
  length (l ++ [x]) = length (l' ++ [y]) -> length l = length l'.
Proof. rewrite !length_app. cbn. lia. Qed.

(** C6.  Whatever the frame, a sequence returned by the generator does not
    end with a BUY: it consists of whole BUY/SELL brackets, paired one to
    one with its timestamps, and when the scan ends inside a trade the
    returned sequence is the emitted one without its trailing BUY. *)
Theorem output_never_ends_with_buy df target ts sg :
  simulate_trades df target = Ok (Some (ts, sg)) ->
  last sg SELL <> BUY /\
  (exists k, sg = bracketed k) /\
  length ts = length sg /\
  (forall st, scan df target = Ok st -> active_trade st = true ->
     signals st = sg ++ [BUY] /\ ts = removelast (timestamps st)).
Proof.
  intro H.
  destruct (Nat.lt_ge_cases (length df) 102) as [Hs|Hl].
  - rewrite (simulate_trades_short df target Hs) in H. discriminate.
  - destruct (simulate_trades_long df target Hl)
      as [st [Hscan [[Hlen [k Hk]] Hcase]]].
    destruct Hcase as [[_ E] | [[Hact E] | [Hact [_ E]]]];
      rewrite E in H; [discriminate | |].
    + inversion H; subst ts sg; clear H.
      rewrite Hact in Hk.
      assert (Hts : timestamps st <> []).
      { intro N. rewrite N, Hk, length_app in Hlen. cbn in Hlen. lia. }
      assert (Hsg : removelast (signals st) = bracketed k)
        by (rewrite Hk; apply removelast_last).
      rewrite Hsg.
      split; [apply bracketed_not_buy_last|].
      split; [exists k; reflexivity|].
      split.
      * rewrite (app_removelast_last 0%Z Hts), Hk in Hlen.
        exact (length_removelast_snoc _ _ _ _ Hlen).
      * intros st0 Hscan0 _. rewrite Hscan in Hscan0.
        inversion Hscan0; subst st0. split; [exact Hk | reflexivity].
    + inversion H; subst ts sg; clear H.
      rewrite Hact, app_nil_r in Hk.
      split; [rewrite Hk; apply bracketed_not_buy_last|].
      split; [exists k; exact Hk|].
      split; [exact Hlen|].
      intros st0 Hscan0 Hact0. rewrite Hscan in Hscan0.
      inversion Hscan0; subst st0. congruence.
Qed.

(** On [Scenario.df_open_end] the only trade is still open when the data
    ends, and the lone BUY is dropped. *)
Lemma output_never_ends_with_buy_witness :
  last (@nil Z) SELL <> BUY /\
  (exists k, @nil Z = bracketed k) /\
  length (@nil Z) = length (@nil Z) /\
  (forall st, scan Scenario.df_open_end (3 # 2) = Ok st ->
     active_trade st = true ->
     signals st = [] ++ [BUY] /\ [] = removelast (timestamps st)).
Proof.
  apply (@output_never_ends_with_buy Scenario.df_open_end (3 # 2) [] []).
  vm_compute. reflexivity.
Defined.

(** C2.  A frame of 102 rows, and a frame of 300 rows on which no entry
    rule fires, both make [simulate_trades] raise [IndexError] at the
    inspection of the last signal instead of returning a pair; frames under
    102 rows return [None]. *)
Theorem no_signal_frame_raises :
  length Scenario.df_quiet = 102%nat /\
  simulate_trades Scenario.df_quiet (3 # 2) = Raise IndexError /\
  length Scenario.df_quiet_long = 300%nat /\
  scan Scenario.df_quiet_long (3 # 2) = Ok init /\
  simulate_trades Scenario.df_quiet_long (3 # 2) = Raise IndexError /\
  simulate_trades (firstn 101 Scenario.df_quiet) (3 # 2) = Ok None.
Proof. repeat split; vm_compute; reflexivity. Qed.

(** C1.  On [Scenario.df_reentry] the generator returns BUY, SELL, BUY,
    SELL stamped with rows 102, 101, 105, 106: each BUY carries the time of
    row [i+2] while the scan goes on from row [i+1].  In timestamp order the
    signals read SELL, BUY, BUY, SELL, with two BUYs next to each other. *)
Theorem reentry_output_repeats_buy :
  let out := ([Scenario.minute 102; Scenario.minute 101;
               Scenario.minute 105; Scenario.minute 106],
              [BUY; SELL; BUY; SELL]) in
  simulate_trades Scenario.df_reentry (3 # 2) = Ok (Some out) /\
  sorted_by_time out = [SELL; BUY; BUY; SELL] /\
  alternating (sorted_by_time out) = false.
Proof. repeat split; vm_compute; reflexivity. Qed.

End SimulatorProps.

(** * Properties of the backtest engine *)

Module BacktesterProps.
Import Backtester.

(** ** Sorting *)

Section SortingFacts.
Context {A : Type} (key : A -> Z).

Lemma insert_perm (x : A) (l : list A) : Permutation (insert key x l) (x :: l).
Proof.
  induction l as [|y l IH]; cbn.
  - apply Permutation_refl.
  - destruct (key x <=? key y)%Z.
    + apply Permutation_refl.
    + apply perm_trans with (y :: x :: l).
      * apply perm_skip. exact IH.
      * apply perm_swap.
Qed.

Lemma sort_by_perm (l : list A) : Permutation (sort_by key l) l.
Proof.
  induction l as [|x l IH]; cbn.
  - apply perm_nil.
  - apply perm_trans with (x :: sort_by key l).
    + apply insert_perm.
    + apply perm_skip. exact IH.
Qed.

(** Insertions of two elements with different keys commute. *)
Lemma insert_comm (x y : A) (l : list A) :
  key x <> key y ->
  insert key x (insert key y l) = insert key y (insert key x l).
Proof.
  intro Hne. induction l as [|z l IH]; cbn.
  - destruct (key x <=? key y)%Z eqn:E1, (key y <=? key x)%Z eqn:E2;
      try reflexivity; lia.
  - destruct (key y <=? key z)%Z eqn:Eyz, (key x <=? key z)%Z eqn:Exz; cbn;
      rewrite ?Eyz, ?Exz;
      destruct (key x <=? key y)%Z eqn:Exy, (key y <=? key x)%Z eqn:Eyx;
      cbn; rewrite ?Eyz, ?Exz; try reflexivity; try lia;
      rewrite IH; reflexivity.
Qed.

(** With pairwise distinct keys the sorted list depends on the elements
    only, not on the order they arrive in. *)
Lemma sort_by_perm_eq (l l' : list A) :
  Permutation l l' -> NoDup (map key l) -> sort_by key l = sort_by key l'.
Proof.
  induction 1 as [| x l l' _ IH | x y l | l l' l'' P1 IH1 P2 IH2];
    intro Hnd.
  - reflexivity.
  - cbn. rewrite IH; [reflexivity|]. inversion Hnd; assumption.
  - cbn. apply insert_comm.
    inversion Hnd as [|? ? Hin _]. intro E. apply Hin. left. symmetry. exact E.
  - rewrite IH1 by exact Hnd. apply IH2.
    apply Permutation_NoDup with (map key l); [|exact Hnd].
    apply Permutation_map. exact P1.
Qed.
End SortingFacts.

Lemma insert_map {A B} (keyA : A -> Z) (keyB : B -> Z) (f : A -> B) :
  (forall a, keyB (f a) = keyA a) ->
  forall x l, insert keyB (f x) (map f l) = map f (insert keyA x l).
Proof.
  intros Hf x l. induction l as [|y l IH]; cbn.
  - reflexivity.
  - rewrite !Hf. destruct (keyA x <=? keyA y)%Z; cbn.
    + reflexivity.
    + rewrite IH. reflexivity.
Qed.

Lemma sort_by_map {A B} (keyA : A -> Z) (keyB : B -> Z) (f : A -> B) :
  (forall a, keyB (f a) = keyA a) ->
  forall l, sort_by keyB (map f l) = map f (sort_by keyA l).
Proof.
  intros Hf l. induction l as [|x l IH]; cbn.
  - reflexivity.
  - rewrite IH. apply insert_map. exact Hf.
Qed.

(** ** Indexing by the sort order *)

Lemma combine_seq_nth {A} (l : list A) : forall a x i,
  In (x, i) (combine l (seq a (length l))) ->
  (a <= i)%nat /\ nth_error l (i - a) = Some x.
Proof.
  induction l as [|y l IH]; intros a x i Hin; cbn in Hin.
  - contradiction.
  - destruct Hin as [E | Hin].
    + inversion E; subst. split; [lia|].
      replace (i - i)%nat with 0%nat by lia. reflexivity.
    + apply IH in Hin. destruct Hin as [Hle Hn]. split; [lia|].
      replace (i - a)%nat with (S (i - S a)) by lia. exact Hn.
Qed.

Lemma map_fst_combine_seq {A} (l : list A) : forall a,
  map fst (combine l (seq a (length l))) = l.
Proof.
  induction l as [|y l IH]; intro a; cbn.
  - reflexivity.
  - rewrite IH. reflexivity.
Qed.

Lemma combine_map_seq {A B} (f : A -> B) (l : list A) : forall a,
  combine (map f l) (seq a (length (map f l)))
  = map (fun p => (f (fst p), snd p)) (combine l (seq a (length l))).
Proof.
  induction l as [|y l IH]; intro a; cbn.
  - reflexivity.
  - rewrite IH. reflexivity.
Qed.

Lemma take_defined {A X} (arr : list A) (g : X -> A) (l : list (X * nat)) :
  (forall x i, In (x, i) l -> nth_error arr i = Some (g x)) ->
  take arr (map snd l) = Ok (map (fun p => g (fst p)) l).
Proof.
  induction l as [|[x i] l IH]; intro H; cbn.
  - reflexivity.
  - rewrite (H x i) by (left; reflexivity).
    rewrite IH by (intros; apply H; right; assumption).
    reflexivity.
Qed.

Lemma combine_fst_snd {A B} (l : list (A * B)) :
  combine (map fst l) (map snd l) = l.
Proof.
  induction l as [|[a b] l IH]; cbn; [|rewrite IH]; reflexivity.
Qed.

(** Sorting a column and then reordering both columns by the sort order is
    sorting the rows by their timestamp. *)
Lemma take_argsort (l : list (Z * Z)) :
  take (map fst l) (argsort (map fst l)) = Ok (map fst (sort_by fst l)) /\
  take (map snd l) (argsort (map fst l)) = Ok (map snd (sort_by fst l)).
Proof.
  set (idxd := combine l (seq 0 (length l))).
  set (key3 := fun p : (Z * Z) * nat => fst (fst p)).
  set (S := sort_by key3 idxd).
  assert (Harg : argsort (map fst l) = map snd S).
  { unfold argsort. rewrite combine_map_seq. fold idxd.
    rewrite (sort_by_map key3 fst (fun p => (fst (fst p), snd p)))
      by reflexivity.
    fold S. rewrite map_map. reflexivity. }
  assert (Hsorted : map fst S = sort_by fst l).
  { unfold S. rewrite <- (sort_by_map key3 fst fst) by reflexivity.
    unfold idxd. rewrite map_fst_combine_seq. reflexivity. }
  assert (Hnth : forall x i, In (x, i) S -> nth_error l i = Some x).
  { intros x i Hin.
    apply (Permutation_in _ (sort_by_perm key3 idxd)) in Hin.
    apply combine_seq_nth in Hin. destruct Hin as [_ Hn].
    rewrite Nat.sub_0_r in Hn. exact Hn. }
  rewrite Harg, <- Hsorted, !map_map. split.
  - apply (take_defined (map fst l) fst S).
    intros x i Hin. rewrite nth_error_map, (Hnth x i Hin). reflexivity.
  - apply (take_defined (map snd l) snd S).
    intros x i Hin. rewrite nth_error_map, (Hnth x i Hin). reflexivity.
Qed.

Lemma joined_rows_pairs (df : DataFrame) (l : list (Z * Z)) :
  joined_rows df (map fst l) (map snd l) =
  if missing_timestamp df (map fst l)
  then Raise ValueError_timestamps
  else Ok (dropna (merge_left df (sort_by fst l))).
Proof.
  unfold joined_rows.
  destruct (missing_timestamp df (map fst l)); [reflexivity|].
  destruct (take_argsort l) as [E1 E2]. rewrite E1, E2. cbn [bind].
  rewrite combine_fst_snd. reflexivity.
Qed.

Lemma existsb_perm {A} (f : A -> bool) (l l' : list A) :
  Permutation l l' -> existsb f l = existsb f l'.
Proof.
  induction 1; cbn.
  - reflexivity.
  - rewrite IHPermutation. reflexivity.
  - destruct (f x), (f y); reflexivity.
  - congruence.
Qed.

(** C5.  For signals with pairwise distinct timestamps the engine's outcome
    is the same for every ordering of the (timestamp, direction) pairs: the
    pairs are sorted by timestamp before the replay. *)
Theorem signal_order_irrelevant (df : DataFrame) (l l' : list (Z * Z)) :
  NoDup (map fst l) ->
  Permutation l l' ->
  joined_rows df (map fst l) (map snd l)
    = joined_rows df (map fst l') (map snd l') /\
  simple_backtest df (map fst l) (map snd l)
    = simple_backtest df (map fst l') (map snd l').
Proof.
  intros Hnd Hp.
  assert (E : joined_rows df (map fst l) (map snd l)
              = joined_rows df (map fst l') (map snd l')).
  { rewrite !joined_rows_pairs. unfold missing_timestamp.
    rewrite (existsb_perm _ (Permutation_map fst Hp)).
    rewrite (sort_by_perm_eq fst Hp Hnd). reflexivity. }
  split; [exact E|]. unfold simple_backtest. rewrite E. reflexivity.
Qed.

(** Scenario B: the signals of Scenario A supplied out of order. *)
Lemma signal_order_irrelevant_witness :
  joined_rows Scenario.df_A [120000; 0]%Z [SELL; BUY]
    = joined_rows Scenario.df_A [0; 120000]%Z [BUY; SELL] /\
  simple_backtest Scenario.df_A [120000; 0]%Z [SELL; BUY]
    = simple_backtest Scenario.df_A [0; 120000]%Z [BUY; SELL].
Proof.
  apply (@signal_order_irrelevant Scenario.df_A
           [(120000, SELL); (0, BUY)]%Z [(0, BUY); (120000, SELL)]%Z).
  - repeat constructor; cbn; intuition discriminate.
  - apply perm_swap.
Defined.

(** ** Validation *)

Lemma missing_timestamp_iff (df : DataFrame) (ts : list Z) :
  missing_timestamp df ts = true <->
  exists t, In t ts /\ ~ In t (map Time df).
Proof.
  unfold missing_timestamp. rewrite existsb_exists. split.
  - intros [t [Hin Hneg]]. exists t. split; [exact Hin|].
    intro Hd. apply negb_true_iff in Hneg.
    assert (existsb (Z.eqb t) (map Time df) = true).
    { apply existsb_exists. exists t. split; [exact Hd | apply Z.eqb_refl]. }
    congruence.
  - intros [t [Hin Hnot]]. exists t. split; [exact Hin|].
    apply negb_true_iff. destruct (existsb (Z.eqb t) (map Time df)) eqn:E;
      [|reflexivity].
    apply existsb_exists in E. destruct E as [u [Hu Eq]].
    apply Z.eqb_eq in Eq. subst u. contradiction.
Qed.

Lemma take_raises {A} (arr : list A) (idx : list nat) (e : PyError) :
  take arr idx = Raise e -> e = IndexError.
Proof.
  induction idx as [|i idx IH]; cbn.
  - discriminate.
  - destruct (nth_error arr i); [|intro H; inversion H; reflexivity].
    destruct (take arr idx); cbn; [discriminate|].
    intro H. inversion H; subst. apply IH. reflexivity.
Qed.

Lemma np_sub_raises (a b : list Z) (e : PyError) :
  np_sub a b = Raise e -> e = ValueError_broadcast.
Proof.
  unfold np_sub. destruct (length a =? length b)%nat; [discriminate|].
  destruct a as [|x [|x' a]], b as [|y [|y' b]];
    try discriminate; intro H; inversion H; reflexivity.
Qed.

Lemma summarize_raises (a : Account) (e : PyError) :
  summarize a = Raise e -> e = ValueError_broadcast.
Proof.
  unfold summarize, holding_time.
  destruct (nonempty (buy_times a) && nonempty (sell_times a));
    [|discriminate].
  destruct (np_sub (sell_times a) (buy_times a)) eqn:E; cbn; [discriminate|].
  intro H. inversion H; subst. exact (np_sub_raises _ _ E).
Qed.

Lemma joined_rows_validation (df : DataFrame) (ts sg : list Z) :
  joined_rows df ts sg = Raise ValueError_timestamps <->
  missing_timestamp df ts = true.
Proof.
  unfold joined_rows. destruct (missing_timestamp df ts).
  - split; reflexivity.
  - split; [|discriminate]. intro H.
    destruct (take ts (argsort ts)) eqn:E1; cbn in H.
    + destruct (take sg (argsort ts)) eqn:E2; cbn in H; [discriminate|].
      inversion H; subst. apply take_raises in E2. discriminate.
    + inversion H; subst. apply take_raises in E1. discriminate.
Qed.

(** C3.  The engine raises the validation error exactly when some signal
    timestamp is missing from the frame's [Time] column.  The error comes
    out of the join stage that precedes the replay, and the outcome is then
    the error alone, with no result record. *)
Theorem validation_error_iff (df : DataFrame) (ts sg : list Z) :
  (simple_backtest df ts sg = Raise ValueError_timestamps <->
   exists t, In t ts /\ ~ In t (map Time df)) /\
  (joined_rows df ts sg = Raise ValueError_timestamps <->
   exists t, In t ts /\ ~ In t (map Time df)).
Proof.
  rewrite <- missing_timestamp_iff, joined_rows_validation.
  split; [|reflexivity].
  rewrite <- (joined_rows_validation df ts sg). unfold simple_backtest.
  destruct (joined_rows df ts sg) as [rows|e]; cbn.
  - split; [|discriminate]. intro H.
    apply summarize_raises in H. discriminate.
  - split; intro H; inversion H; reflexivity.
Qed.

(** Scenario C: a signal stamped 999999, a time the frame does not have. *)
Lemma validation_error_witness :
  simple_backtest Scenario.df_A [0; 999999]%Z [BUY; SELL]
  = Raise ValueError_timestamps.
Proof.
  apply (proj1 (validation_error_iff Scenario.df_A [0; 999999]%Z [BUY; SELL])).
  exists 999999%Z. split.
  - right; left; reflexivity.
  - cbn. intuition discriminate.
Defined.

(** ** Replay *)

(** C9.  A BUY met while the account is long leaves the whole account as
    it is, and so does a SELL met while it is flat. *)
Theorem redundant_signal_ignored (a : Account) (time : Z) (close : Q) :
  (position a = true -> step a (time, close, BUY) = a) /\
  (position a = false -> step a (time, close, SELL) = a).
Proof.
  split; intro H; unfold step; rewrite H; reflexivity.
Qed.

(** A second BUY after the account went long at time 0, and a SELL on the
    untouched initial account. *)
Lemma redundant_signal_ignored_witness :
  step (step init (0%Z, 100, BUY)) (60000%Z, 110, BUY)
    = step init (0%Z, 100, BUY) /\
  step init (60000%Z, 110, SELL) = init.
Proof.
  split.
  - apply (proj1 (redundant_signal_ignored
                    (step init (0%Z, 100, BUY)) 60000%Z 110)).
    reflexivity.
  - apply (proj2 (redundant_signal_ignored init 60000%Z 110)).
    reflexivity.
Defined.

(** C4.  Scenario A: the join keeps the two signalled candles; the BUY at
    time 0 buys 1.0 unit; the SELL at 120000 closes the only trade at 90,
    a loss of 10, that is -0.10 of the stake; no win is counted. *)
Theorem scenario_A :
  joined_rows Scenario.df_A [0; 120000]%Z [BUY; SELL]
    = Ok [(0%Z, 100, BUY); (120000%Z, 90, SELL)] /\
  crypto_value (step init (0%Z, 100, BUY)) == 1 /\
  exists r gain perc,
    simple_backtest Scenario.df_A [0; 120000]%Z [BUY; SELL] = Ok r /\
    end_portfolio_value r == 90 /\
    res_trade_gain_losses r = [gain] /\ gain == -(10) /\
    res_trade_perc_gain_losses r = [perc] /\ perc == -(1 # 10) /\
    num_trades r = 1%Z /\
    num_wins r = 0%Z /\
    percentage_gain r == -(1 # 10) /\
    res_buy_times r = [0%Z] /\
    res_sell_times r = [120000%Z].
Proof.
  split; [reflexivity|]. split; [reflexivity|].
  eexists. eexists. eexists.
  split; [vm_compute; reflexivity|].
  repeat split; reflexivity.
Qed.

(** ** Book-keeping invariant *)

Lemma init_consistent : consistent init.
Proof. unfold consistent. cbn. repeat split; try reflexivity; lia. Qed.

Lemma step_consistent (a : Account) (row : Z * Q * Z) :
  consistent a -> consistent (step a row).
Proof.
  destruct row as [[time close] signal].
  intros (Htr & Hg & Hp & Htt & Hb & Hw & Hpv).
  unfold step.
  destruct (position a) eqn:Hpos; cbn [negb andb].
  - destruct (signal =? SELL)%Z.
    + unfold consistent. cbn. rewrite !length_app, Hg, Hp, Htt. cbn.
      repeat split; try reflexivity; try lia.
      * destruct (Qleb 0 _); lia.
      * destruct (Qleb 0 _); lia.
      * intro E. destruct (sell_times a); discriminate.
    + unfold consistent. rewrite Hpos. repeat split; assumption || lia.
  - destruct (signal =? BUY)%Z.
    + unfold consistent. cbn. rewrite !length_app. cbn.
      repeat split; assumption || lia.
    + unfold consistent. rewrite Hpos. repeat split; assumption || lia.
Qed.

Lemma replay_from_consistent (rows : list (Z * Q * Z)) : forall a,
  consistent a -> consistent (replay_from a rows).
Proof.
  induction rows as [|row rows IH]; intros a Ha; cbn.
  - exact Ha.
  - apply IH, step_consistent, Ha.
Qed.

Lemma replay_consistent (rows : list (Z * Q * Z)) : consistent (replay rows).
Proof. apply replay_from_consistent, init_consistent. Qed.

Lemma length_zero_nil {A} (l : list A) : length l = 0%nat -> l = [].
Proof. destruct l; [reflexivity | discriminate]. Qed.

(** The record built from an account on which no trade closed. *)
Lemma summarize_zero (a : Account) :
  consistent a -> trades a = 0%Z ->
  exists r, summarize a = Ok r /\ zero_summary r.
Proof.
  intros (Htr & Hg & Hp & Htt & Hb & Hw & Hpv) H0.
  assert (Hs : sell_times a = []) by (apply length_zero_nil; lia).
  rewrite Hs in Hg, Hp. apply length_zero_nil in Hg, Hp.
  unfold summarize, holding_time.
  rewrite Hs, Hg, Hp, H0, (Hpv Hs), andb_false_r. cbn [bind nonempty Z.ltb].
  eexists. split; [reflexivity|].
  unfold zero_summary. cbn. repeat split; reflexivity.
Qed.

Lemma merge_left_no_signal (df : DataFrame) : dropna (merge_left df []) = [].
Proof.
  unfold merge_left. induction df as [|r df IH]; cbn; [reflexivity | exact IH].
Qed.

Lemma joined_rows_no_signal (df : DataFrame) : joined_rows df [] [] = Ok [].
Proof.
  unfold joined_rows. cbn. rewrite merge_left_no_signal. reflexivity.
Qed.

(** C8.  With an empty signal list, and more generally whenever the replay
    closes no trade, the engine returns a record with [num_trades = 0], the
    portfolio still at its starting value of 100, a percentage gain of 0,
    and every average (win rate, gain and percentage gain per trade,
    holding time) at its default of 0; no division is attempted. *)
Theorem zero_trades_defaults (df : DataFrame) :
  (exists r, simple_backtest df [] [] = Ok r /\ zero_summary r) /\
  (forall ts sg rows,
     joined_rows df ts sg = Ok rows ->
     trades (replay rows) = 0%Z ->
     exists r, simple_backtest df ts sg = Ok r /\ zero_summary r).
Proof.
  assert (G : forall ts sg rows,
             joined_rows df ts sg = Ok rows ->
             trades (replay rows) = 0%Z ->
             exists r, simple_backtest df ts sg = Ok r /\ zero_summary r).
  { intros ts sg rows Hj H0. unfold simple_backtest. rewrite Hj. cbn [bind].
    apply summarize_zero; [apply replay_consistent | exact H0]. }
  split; [|exact G].
  apply (G [] [] [] (joined_rows_no_signal df)). reflexivity.
Qed.

(** A lone BUY on Scenario A's frame: a position is opened and never
    closed, so no trade closes although [buy_times] is not empty. *)
Lemma zero_trades_defaults_witness :
  exists r, simple_backtest Scenario.df_A [0%Z] [BUY] = Ok r /\ zero_summary r.
Proof.
  apply (proj2 (zero_trades_defaults Scenario.df_A) [0%Z] [BUY]
               [(0%Z, 100, BUY)]); reflexivity.
Defined.

(** ** Average holding time *)

Lemma summarize_holding (a : Account) (h : Q) :
  holding_time a = Ok h ->
  exists r, summarize a = Ok r /\ avg_holding_time r = h.
Proof.
  intro H. unfold summarize. rewrite H. cbn [bind].
  eexists. split; reflexivity.
Qed.

Lemma summarize_broadcast (a : Account) :
  holding_time a = Raise ValueError_broadcast ->
  summarize a = Raise ValueError_broadcast.
Proof. intro H. unfold summarize. rewrite H. reflexivity. Qed.

Lemma holding_time_matched (a : Account) :
  length (buy_times a) = length (sell_times a) ->
  holding_time a = Ok (closed_trade_mean (buy_times a) (sell_times a)).
Proof.
  intro Hlen. unfold holding_time, closed_trade_mean, np_sub.
  rewrite <- Hlen, Nat.eqb_refl.
  destruct (sell_times a) as [|s sells].
  - rewrite andb_false_r. reflexivity.
  - destruct (buy_times a) as [|b buys]; [discriminate|].
    cbn [nonempty andb bind]. rewrite map_map. reflexivity.
Qed.

(** One sell time against two buy times: the mean of the broadcast
    differences is the closed trade's holding time only if the two buy
    times coincide. *)
Lemma broadcast_mean_eq (s b0 b1 : Z) :
  np_mean [inject_Z (s - b0); inject_Z (s - b1)]
    == closed_trade_mean [b0; b1] [s]
  <-> b1 = b0.
Proof.
  unfold closed_trade_mean, np_mean, Qsum, Qeq. cbn.
  split; intro H; lia.
Qed.

(** *** Distinct buy times *)

Lemma take_argsort_perm (ts ts' : list Z) :
  take ts (argsort ts) = Ok ts' -> Permutation ts' ts.
Proof.
  set (l := map (fun t : Z => (t, 0%Z)) ts).
  assert (E : map fst l = ts).
  { unfold l. rewrite map_map. cbn. apply map_id. }
  destruct (take_argsort l) as [H _]. rewrite E in H.
  intro H'. rewrite H in H'. inversion H'; subst ts'.
  apply perm_trans with (map fst l).
  - apply Permutation_map, sort_by_perm.
  - rewrite E. apply Permutation_refl.
Qed.

Lemma combine_fst_nodup {A B} (a : list A) : forall (b : list B),
  NoDup a -> NoDup (map fst (combine a b)).
Proof.
  induction a as [|x a IH]; intros b Hnd; cbn.
  - constructor.
  - destruct b as [|y b]; cbn; [constructor|].
    inversion Hnd as [|? ? Hx Ha]; subst. constructor.
    + intro Hin. apply Hx. apply in_map_iff in Hin.
      destruct Hin as [[u v] [Eu Hin]]. cbn in Eu. subst u.
      exact (in_combine_l _ _ _ _ Hin).
    + apply IH. exact Ha.
Qed.

Lemma filter_unique (S : list (Z * Z)) (t : Z) :
  NoDup (map fst S) ->
  (length (filter (fun s => (fst s =? t)%Z) S) <= 1)%nat.
Proof.
  induction S as [|[u v] S IH]; intro Hnd; cbn.
  - lia.
  - inversion Hnd as [|? ? Hu HS]; subst.
    destruct (u =? t)%Z eqn:E; [|apply IH; exact HS].
    apply Z.eqb_eq in E. subst u. cbn.
    destruct (filter (fun s => (fst s =? t)%Z) S) as [|[u' v'] rest] eqn:F;
      [cbn; lia|].
    exfalso. apply Hu.
    assert (Hin : In (u', v') (filter (fun s => (fst s =? t)%Z) S))
      by (rewrite F; left; reflexivity).
    apply filter_In in Hin. destruct Hin as [Hin Eq]. cbn in Eq.
    apply Z.eqb_eq in Eq. subst u'.
    apply in_map_iff. exists (t, v'). split; [reflexivity | exact Hin].
Qed.

Lemma dropna_app (a b : list (Z * Q * option Z)) :
  dropna (a ++ b) = dropna a ++ dropna b.
Proof.
  induction a as [|[[t c] [s|]] a IH]; cbn; [| rewrite IH |]; auto.
Qed.

Lemma merge_left_times_incl (df : DataFrame) (S : list (Z * Z)) (t : Z) :
  In t (row_times (dropna (merge_left df S))) -> In t (map Time df).
Proof.
  unfold merge_left, row_times. induction df as [|r df IH]; cbn.
  - contradiction.
  - rewrite dropna_app, map_app, in_app_iff. intros [H | H].
    + left. destruct (filter (fun s => (fst s =? Time r)%Z) S) as [|m ms].
      * cbn in H. contradiction.
      * apply in_map_iff in H. destruct H as [[[u c] v] [Eu Hin]].
        cbn in Eu. subst u.
        assert (forall ms', In (t, c, v) (dropna (map
                  (fun s : Z * Z => (Time r, Close r, Some (snd s))) ms'))
                -> Time r = t).
        { induction ms' as [|m' ms' IHm]; cbn; [contradiction|].
          intros [E | Hm]; [inversion E; reflexivity | apply IHm, Hm]. }
        apply (H (m :: ms)). exact Hin.
    + right. apply IH, H.
Qed.

Lemma merge_left_times_nodup (df : DataFrame) (S : list (Z * Z)) :
  NoDup (map Time df) -> NoDup (map fst S) ->
  NoDup (row_times (dropna (merge_left df S))).
Proof.
  intros Hdf HS. induction df as [|r df IH].
  - constructor.
  - inversion Hdf as [|? ? Hr Hdf']; subst.
    specialize (IH Hdf').
    assert (Hnot : ~ In (Time r) (row_times (dropna (merge_left df S)))).
    { intro Hin. apply Hr. exact (merge_left_times_incl _ _ _ Hin). }
    change (merge_left (r :: df) S)
      with ((match filter (fun s => (fst s =? Time r)%Z) S with
             | [] => [(Time r, Close r, None)]
             | matches =>
                 map (fun s => (Time r, Close r, Some (snd s))) matches
             end) ++ merge_left df S).
    pose proof (filter_unique S (Time r) HS) as Hle.
    destruct (filter (fun s => (fst s =? Time r)%Z) S) as [|m [|m' ms]].
    + exact IH.
    + cbn. constructor; [exact Hnot | exact IH].
    + cbn in Hle. lia.
Qed.

Lemma joined_rows_times_nodup (df : DataFrame) (ts sg : list Z) rows :
  joined_rows df ts sg = Ok rows ->
  NoDup (map Time df) -> NoDup ts ->
  NoDup (row_times rows).
Proof.
  unfold joined_rows. intros H Hdf Hts.
  destruct (missing_timestamp df ts); [discriminate|].
  destruct (take ts (argsort ts)) as [ts'|] eqn:E1; cbn in H; [|discriminate].
  destruct (take sg (argsort ts)) as [sg'|] eqn:E2; cbn in H; [|discriminate].
  inversion H; subst rows. apply merge_left_times_nodup; [exact Hdf|].
  apply combine_fst_nodup.
  apply Permutation_NoDup with ts; [|exact Hts].
  apply Permutation_sym, take_argsort_perm, E1.
Qed.

Lemma replay_buy_times_nodup (rows : list (Z * Q * Z)) : forall a,
  NoDup (buy_times a ++ row_times rows) ->
  NoDup (buy_times (replay_from a rows)).
Proof.
  induction rows as [|[[t c] s] rows IH]; intros a Hnd; cbn.
  - rewrite app_nil_r in Hnd. exact Hnd.
  - apply IH. unfold step.
    destruct (negb (position a) && (s =? BUY)%Z).
    + cbn. rewrite <- app_assoc. exact Hnd.
    + assert (Hrest : NoDup (buy_times a ++ row_times rows))
        by exact (NoDup_remove_1 _ _ _ Hnd).
      destruct (position a && (s =? SELL)%Z); exact Hrest.
Qed.

(** C10 (amended).  When the replay leaves as many buy times as sell
    times, the engine returns and [avg_holding_time] is the mean of the
    pairwise differences [sell_time - buy_time] (0 when no trade closed).
    When it ends with an unmatched BUY: with no closed trade the guard
    yields 0; with exactly one closed trade the sell time is stretched over
    both buy times, the engine returns the mean of the two differences,
    which is the closed trade's holding time only if the two buy times
    coincide; with two or more closed trades the subtraction raises.  Hence
    on a frame with pairwise distinct candle times and signals with
    pairwise distinct timestamps, an unmatched BUY after at least one
    closed trade makes the engine either raise or return an average that
    is not the mean holding time of the closed trades. *)
Theorem holding_time_average (df : DataFrame) (ts sg : list Z)
        (rows : list (Z * Q * Z)) :
  joined_rows df ts sg = Ok rows ->
  (length (buy_times (replay rows)) = length (sell_times (replay rows)) ->
   exists r, simple_backtest df ts sg = Ok r /\
     avg_holding_time r
     = closed_trade_mean (buy_times (replay rows)) (sell_times (replay rows)))
  /\
  (position (replay rows) = true ->
   length (buy_times (replay rows)) = S (length (sell_times (replay rows))) /\
   (sell_times (replay rows) = [] ->
    exists r, simple_backtest df ts sg = Ok r /\ avg_holding_time r = 0) /\
   (forall s, sell_times (replay rows) = [s] ->
    exists b0 b1 r,
      buy_times (replay rows) = [b0; b1] /\
      simple_backtest df ts sg = Ok r /\
      avg_holding_time r = np_mean [inject_Z (s - b0); inject_Z (s - b1)] /\
      (avg_holding_time r == closed_trade_mean [b0; b1] [s] <-> b1 = b0)) /\
   ((2 <= length (sell_times (replay rows)))%nat ->
    simple_backtest df ts sg = Raise ValueError_broadcast) /\
   (NoDup (map Time df) -> NoDup ts -> sell_times (replay rows) <> [] ->
    simple_backtest df ts sg = Raise ValueError_broadcast \/
    exists r, simple_backtest df ts sg = Ok r /\
      ~ avg_holding_time r
        == closed_trade_mean (buy_times (replay rows))
                             (sell_times (replay rows)))).
Proof.
  intro Hj.
  assert (Hdistinct : NoDup (map Time df) -> NoDup ts ->
                      NoDup (buy_times (replay rows))).
  { intros Hdf Hts. apply replay_buy_times_nodup. cbn.
    exact (joined_rows_times_nodup _ _ Hj Hdf Hts). }
  unfold simple_backtest. rewrite Hj. cbn [bind].
  destruct (replay_consistent rows) as (_ & _ & _ & _ & Hb & _).
  set (a := replay rows) in *.
  split.
  - intro Hlen. apply summarize_holding, holding_time_matched, Hlen.
  - intro Hpos. rewrite Hpos in Hb.
    assert (Hone : forall s, sell_times a = [s] ->
      exists b0 b1 r,
        buy_times a = [b0; b1] /\
        summarize a = Ok r /\
        avg_holding_time r = np_mean [inject_Z (s - b0); inject_Z (s - b1)] /\
        (avg_holding_time r == closed_trade_mean [b0; b1] [s] <-> b1 = b0)).
    { intros s Hs. rewrite Hs in Hb. cbn in Hb.
      destruct (buy_times a) as [|b0 [|b1 [|b2 buys]]] eqn:Eb;
        try discriminate.
      exists b0, b1.
      destruct (@summarize_holding a
                  (np_mean [inject_Z (s - b0); inject_Z (s - b1)]))
        as [r [Hr Havg]].
      { unfold holding_time. rewrite Hs, Eb. reflexivity. }
      exists r. split; [reflexivity|]. split; [exact Hr|].
      split; [exact Havg|]. rewrite Havg. apply broadcast_mean_eq. }
    assert (Hmany : (2 <= length (sell_times a))%nat ->
                    summarize a = Raise ValueError_broadcast).
    { intro H2. apply summarize_broadcast. unfold holding_time, np_sub.
      destruct (sell_times a) as [|s0 [|s1 sells]]; cbn in H2; try lia.
      destruct (buy_times a) as [|b0 [|b1 [|b2 buys]]]; cbn in Hb; try lia.
      cbn [nonempty andb length].
      replace (S (S (length sells)) =? S (S (S (length buys))))%nat
        with false by (symmetry; apply Nat.eqb_neq; lia).
      reflexivity. }
    split; [lia|]. split; [|split; [exact Hone | split; [exact Hmany|]]].
    + intro Hs. apply summarize_holding. unfold holding_time.
      rewrite Hs, andb_false_r. reflexivity.
    + intros Hdf Hts Hne. specialize (Hdistinct Hdf Hts).
      destruct (sell_times a) as [|s [|s' sells]] eqn:Es.
      * contradiction.
      * right. destruct (Hone s eq_refl) as (b0 & b1 & r & Eb & Hr & _ & Hiff).
        exists r. split; [exact Hr|]. rewrite Eb. intro Heq.
        apply Hiff in Heq. subst b1. rewrite Eb in Hdistinct.
        inversion Hdistinct as [|? ? Hin _]. apply Hin. left. reflexivity.
      * left. apply Hmany. cbn. lia.
Qed.

(** Scenario A once more (one BUY, one SELL, held for 120000 ms), and
    Scenario A followed by a second BUY at 120000 that is never closed: the
    average returned there is not the closed trade's 60000 ms. *)
Lemma holding_time_average_witness :
  (exists r,
     simple_backtest Scenario.df_A [0; 120000]%Z [BUY; SELL] = Ok r /\
     avg_holding_time r = closed_trade_mean [0%Z] [120000%Z]) /\
  (simple_backtest Scenario.df_A [0; 60000; 120000]%Z [BUY; SELL; BUY]
     = Raise ValueError_broadcast \/
   exists r,
     simple_backtest Scenario.df_A [0; 60000; 120000]%Z [BUY; SELL; BUY]
       = Ok r /\
     ~ avg_holding_time r == closed_trade_mean [0; 120000]%Z [60000%Z]).
Proof.
  split.
  - apply (proj1 (@holding_time_average Scenario.df_A
                    [0; 120000]%Z [BUY; SELL]
                    [(0%Z, 100, BUY); (120000%Z, 90, SELL)] eq_refl)).
    reflexivity.
  - apply (proj2 (@holding_time_average Scenario.df_A
                    [0; 60000; 120000]%Z [BUY; SELL; BUY]
                    [(0%Z, 100, BUY); (60000%Z, 110, SELL);
                     (120000%Z, 90, BUY)] eq_refl)).
    + reflexivity.
    + repeat constructor; cbn; intuition discriminate.
    + repeat constructor; cbn; intuition discriminate.
    + discriminate.
Defined.

(** An executed BUY left unmatched, no failure, and an average equal to
    the holding time of the closed trade, on two inputs that pass the
    validation.  First, three signals stamped with the same candle, BUY,
    SELL, BUY: the lone sell time 0 is stretched over the buy times 0, 0.
    Second, BUY at 0 and SELL at 60000 on a frame whose candle at time 0
    occurs again after the SELL: the lone sell time 60000 is stretched over
    the buy times 0, 0. *)
Lemma unmatched_buy_same_average :
  (exists r,
    joined_rows Scenario.df_A [0; 0; 0]%Z [BUY; SELL; BUY]
      = Ok [(0%Z, 100, BUY); (0%Z, 100, SELL); (0%Z, 100, BUY)] /\
    simple_backtest Scenario.df_A [0; 0; 0]%Z [BUY; SELL; BUY] = Ok r /\
    res_buy_times r = [0; 0]%Z /\
    res_sell_times r = [0%Z] /\
    position (replay [(0%Z, 100, BUY); (0%Z, 100, SELL); (0%Z, 100, BUY)])
      = true /\
    np_sub (res_sell_times r) (res_buy_times r) = Ok [0; 0]%Z /\
    avg_holding_time r
      == closed_trade_mean (res_buy_times r) (res_sell_times r)) /\
  (exists r,
    joined_rows Scenario.df_repeat [0; 60000]%Z [BUY; SELL]
      = Ok [(0%Z, 100, BUY); (60000%Z, 110, SELL); (0%Z, 100, BUY)] /\
    simple_backtest Scenario.df_repeat [0; 60000]%Z [BUY; SELL] = Ok r /\
    res_buy_times r = [0; 0]%Z /\
    res_sell_times r = [60000%Z] /\
    position (replay [(0%Z, 100, BUY); (60000%Z, 110, SELL); (0%Z, 100, BUY)])
      = true /\
    np_sub (res_sell_times r) (res_buy_times r) = Ok [60000; 60000]%Z /\
    avg_holding_time r
      == closed_trade_mean (res_buy_times r) (res_sell_times r)).
Proof.
  split; eexists; (split; [reflexivity|]);
    (split; [vm_compute; reflexivity|]); repeat split; reflexivity.
Qed.

End BacktesterProps.

(** * Properties of the fractal marking *)

Module FractalsProps.
Import Fractals.

Lemma list_set_map_seq {A} (f : nat -> A) (v : A) (j : nat) : forall n a,
  (a <= j < a + n)%nat ->
  list_set (map f (seq a n)) (j - a) v
  = Ok (map (fun x => if (x =? j)%nat then v else f x) (seq a n)).
Proof.
  induction n as [|n IH]; intros a H; [lia|].
  cbn [seq map]. destruct (Nat.eq_dec a j) as [E|NE].
  - subst a. rewrite Nat.sub_diag. cbn [list_set]. rewrite Nat.eqb_refl.
    f_equal. f_equal. apply map_ext_in. intros x Hx. apply in_seq in Hx.
    replace (x =? j)%nat with false by (symmetry; apply Nat.eqb_neq; lia).
    reflexivity.
  - replace (j - a)%nat with (S (j - S a)) by lia. cbn [list_set].
    rewrite IH by lia. cbn [bind].
    replace (a =? j)%nat with false by (symmetry; apply Nat.eqb_neq; lia).
    reflexivity.
Qed.

Lemma loc_nth (df : DataFrame) (i : nat) :
  (i < length df)%nat ->
  exists r, loc df i = Ok r /\ Low r = low_at df i /\ High r = high_at df i.
Proof.
  intro H. unfold loc, low_at, high_at.
  destruct (nth_error df i) as [r|] eqn:E.
  - exists r. split; [reflexivity|].
    split; symmetry; apply nth_error_nth; rewrite nth_error_map, E; reflexivity.
  - apply nth_error_None in E. lia.
Qed.

Lemma loop_body_marks (df : DataFrame) (i : nat) :
  (5 <= i < length df)%nat ->
  loop_body df (map (marks (bull_at df) i) (seq 0 (length df)),
                map (marks (bear_at df) i) (seq 0 (length df))) i
  = Ok (map (marks (bull_at df) (S i)) (seq 0 (length df)),
        map (marks (bear_at df) (S i)) (seq 0 (length df))).
Proof.
  intro Hi. unfold loop_body.
  destruct (@loc_nth df (i - 3)) as [r3 [E3 [L3 H3]]]; [lia|].
  destruct (@loc_nth df (i - 5)) as [r5 [E5 [L5 H5]]]; [lia|].
  destruct (@loc_nth df (i - 4)) as [r4 [E4 [L4 H4]]]; [lia|].
  destruct (@loc_nth df (i - 2)) as [r2 [E2 [L2 H2]]]; [lia|].
  destruct (@loc_nth df (i - 1)) as [r1 [E1 [L1 H1]]]; [lia|].
  rewrite E3, E5, E4, E2, E1. cbn [bind].
  rewrite L3, L5, L4, L2, L1, H3, H5, H4, H2, H1.
  assert (Hex : examined df (i - 3) = true).
  { unfold examined. apply andb_true_iff. split; apply Nat.leb_le; lia. }
  assert (Hsl : swing_low df (i - 3)
                = Qltb (low_at df (i - 3)) (low_at df (i - 5))
                  && Qltb (low_at df (i - 3)) (low_at df (i - 4))
                  && Qltb (low_at df (i - 3)) (low_at df (i - 2))
                  && Qltb (low_at df (i - 3)) (low_at df (i - 1))).
  { unfold swing_low.
    replace (i - 3 - 2)%nat with (i - 5)%nat by lia.
    replace (i - 3 - 1)%nat with (i - 4)%nat by lia.
    replace (i - 3 + 1)%nat with (i - 2)%nat by lia.
    replace (i - 3 + 2)%nat with (i - 1)%nat by lia. reflexivity. }
  assert (Hsh : swing_high df (i - 3)
                = Qltb (high_at df (i - 5)) (high_at df (i - 3))
                  && Qltb (high_at df (i - 4)) (high_at df (i - 3))
                  && Qltb (high_at df (i - 2)) (high_at df (i - 3))
                  && Qltb (high_at df (i - 1)) (high_at df (i - 3))).
  { unfold swing_high.
    replace (i - 3 - 2)%nat with (i - 5)%nat by lia.
    replace (i - 3 - 1)%nat with (i - 4)%nat by lia.
    replace (i - 3 + 1)%nat with (i - 2)%nat by lia.
    replace (i - 3 + 2)%nat with (i - 1)%nat by lia. reflexivity. }
  rewrite <- Hsl, <- Hsh.
  assert (Hstep : forall (at_ : nat -> option Q) (cond : bool) (v : Q),
            at_ (i - 3)%nat = (if cond then Some v else None) ->
            (if cond
             then list_set (map (marks at_ i) (seq 0 (length df))) (i - 3)
                           (Some v)
             else Ok (map (marks at_ i) (seq 0 (length df))))
            = Ok (map (marks at_ (S i)) (seq 0 (length df)))).
  { intros at_ cond v Hat. destruct cond.
    - replace (i - 3)%nat with (i - 3 - 0)%nat at 1 by lia.
      rewrite list_set_map_seq by lia. f_equal.
      apply map_ext_in. intros x Hx. unfold marks.
      destruct (Nat.eq_dec x (i - 3)) as [E|NE].
      + subst x. rewrite Nat.eqb_refl.
        replace (i - 3 + 3 <? S i)%nat with true
          by (symmetry; apply Nat.ltb_lt; lia).
        symmetry. exact Hat.
      + replace (x =? i - 3)%nat with false
          by (symmetry; apply Nat.eqb_neq; lia).
        destruct (x + 3 <? i)%nat eqn:A.
        * apply Nat.ltb_lt in A.
          replace (x + 3 <? S i)%nat with true
            by (symmetry; apply Nat.ltb_lt; lia). reflexivity.
        * apply Nat.ltb_ge in A.
          replace (x + 3 <? S i)%nat with false
            by (symmetry; apply Nat.ltb_ge; lia). reflexivity.
    - f_equal. apply map_ext_in. intros x Hx. unfold marks.
      destruct (Nat.eq_dec x (i - 3)) as [E|NE].
      + subst x.
        replace (i - 3 + 3 <? i)%nat with false
          by (symmetry; apply Nat.ltb_ge; lia).
        replace (i - 3 + 3 <? S i)%nat with true
          by (symmetry; apply Nat.ltb_lt; lia).
        symmetry. exact Hat.
      + destruct (x + 3 <? i)%nat eqn:A.
        * apply Nat.ltb_lt in A.
          replace (x + 3 <? S i)%nat with true
            by (symmetry; apply Nat.ltb_lt; lia). reflexivity.
        * apply Nat.ltb_ge in A.
          replace (x + 3 <? S i)%nat with false
            by (symmetry; apply Nat.ltb_ge; lia). reflexivity. }
  rewrite (Hstep (bull_at df) (swing_low df (i - 3)) (low_at df (i - 3)))
    by (unfold bull_at; rewrite Hex; reflexivity).
  cbn [bind].
  rewrite (Hstep (bear_at df) (swing_high df (i - 3)) (high_at df (i - 3)))
    by (unfold bear_at; rewrite Hex; reflexivity).
  reflexivity.
Qed.

Lemma for_each_marks (df : DataFrame) (k : nat) : forall a,
  (5 <= a)%nat -> (a + k <= length df)%nat ->
  for_each (loop_body df) (seq a k)
           (map (marks (bull_at df) a) (seq 0 (length df)),
            map (marks (bear_at df) a) (seq 0 (length df)))
  = Ok (map (marks (bull_at df) (a + k)) (seq 0 (length df)),
        map (marks (bear_at df) (a + k)) (seq 0 (length df))).
Proof.
  induction k as [|k IH]; intros a H5 Hb; cbn [seq for_each].
  - rewrite Nat.add_0_r. reflexivity.
  - rewrite loop_body_marks by lia. cbn [bind].
    rewrite IH by lia. rewrite Nat.add_succ_r. reflexivity.
Qed.

Lemma repeat_map_seq {A} (v : A) (n : nat) : forall a,
  repeat v n = map (fun _ => v) (seq a n).
Proof. induction n as [|n IH]; intro a; cbn; [|rewrite (IH (S a))]; reflexivity. Qed.

Lemma unexamined_none (df : DataFrame) (j : nat) :
  (j < 2 \/ length df < j + 4)%nat ->
  bull_at df j = None /\ bear_at df j = None.
Proof.
  intro H. unfold bull_at, bear_at, examined.
  assert (E : (2 <=? j)%nat && (j + 4 <=? length df)%nat = false).
  { apply andb_false_iff. destruct H as [H|H].
    - left. apply Nat.leb_gt. lia.
    - right. apply Nat.leb_gt. lia. }
  rewrite E. split; reflexivity.
Qed.

(** The loop over shifted indices computes the marks row by row. *)
Lemma mark_fractals_rows (df : DataFrame) :
  mark_fractals df
  = Ok (map (bull_at df) (seq 0 (length df)),
        map (bear_at df) (seq 0 (length df))).
Proof.
  unfold mark_fractals. cbv zeta.
  assert (Hinit : forall at_ : nat -> option Q,
            (forall j, (j < 2)%nat -> at_ j = None) ->
            repeat None (length df)
            = map (marks at_ 5) (seq 0 (length df))).
  { intros at_ H. rewrite (repeat_map_seq None (length df) 0).
    apply map_ext_in. intros x _. unfold marks.
    destruct (x + 3 <? 5)%nat eqn:A; [|reflexivity].
    apply Nat.ltb_lt in A. symmetry. apply H. lia. }
  assert (Hfinal : forall (at_ : nat -> option Q) m,
            (length df <= m)%nat ->
            (forall j, (length df < j + 4)%nat -> at_ j = None) ->
            map (marks at_ m) (seq 0 (length df))
            = map at_ (seq 0 (length df))).
  { intros at_ m Hm H. apply map_ext_in. intros x Hx. apply in_seq in Hx.
    unfold marks. destruct (x + 3 <? m)%nat eqn:A; [reflexivity|].
    apply Nat.ltb_ge in A. symmetry. apply H. lia. }
  replace (@repeat (option Q) None (length df), @repeat (option Q) None (length df))
    with (map (marks (bull_at df) 5) (seq 0 (length df)),
          map (marks (bear_at df) 5) (seq 0 (length df)))
    by (rewrite <- (Hinit (bull_at df)), <- (Hinit (bear_at df));
        try reflexivity; intros j Hj; apply (@unexamined_none df j); lia).
  destruct (Nat.le_gt_cases (length df) 5) as [Hs|Hl].
  - replace (length df - 5)%nat with 0%nat by lia. cbn [seq for_each].
    rewrite !Hfinal; try reflexivity; try lia;
      intros j Hj; apply (@unexamined_none df j); lia.
  - rewrite for_each_marks by lia.
    rewrite !Hfinal; try reflexivity; try lia;
      intros j Hj; apply (@unexamined_none df j); lia.
Qed.

Lemma nth_error_map_seq {A} (f : nat -> A) (n j : nat) :
  nth_error (map f (seq 0 n)) j = if (j <? n)%nat then Some (f j) else None.
Proof.
  rewrite nth_error_map. destruct (j <? n)%nat eqn:E.
  - apply Nat.ltb_lt in E.
    rewrite (nth_error_nth' (seq 0 n) 0%nat) by (rewrite length_seq; exact E).
    rewrite seq_nth by exact E. reflexivity.
  - apply Nat.ltb_ge in E.
    replace (nth_error (seq 0 n) j) with (@None nat); [reflexivity|].
    symmetry. apply nth_error_None. rewrite length_seq. exact E.
Qed.

Lemma marked_bull (df : DataFrame) bull bear (j : nat) (v : Q) :
  mark_fractals df = Ok (bull, bear) ->
  nth_error bull j = Some (Some v) ->
  (2 <= j)%nat /\ (j + 4 <= length df)%nat /\ swing_low df j = true
  /\ v = low_at df j.
Proof.
  rewrite mark_fractals_rows. intro H. inversion H; subst. clear H.
  rewrite nth_error_map_seq. destruct (j <? length df)%nat; [|discriminate].
  unfold bull_at, examined.
  destruct (2 <=? j)%nat eqn:A; [|discriminate].
  destruct (j + 4 <=? length df)%nat eqn:B; [|discriminate].
  destruct (swing_low df j); [|discriminate].
  intro E. inversion E.
  apply Nat.leb_le in A, B. auto.
Qed.

Lemma marked_bear (df : DataFrame) bull bear (j : nat) (v : Q) :
  mark_fractals df = Ok (bull, bear) ->
  nth_error bear j = Some (Some v) ->
  (2 <= j)%nat /\ (j + 4 <= length df)%nat /\ swing_high df j = true
  /\ v = high_at df j.
Proof.
  rewrite mark_fractals_rows. intro H. inversion H; subst. clear H.
  rewrite nth_error_map_seq. destruct (j <? length df)%nat; [|discriminate].
  unfold bear_at, examined.
  destruct (2 <=? j)%nat eqn:A; [|discriminate].
  destruct (j + 4 <=? length df)%nat eqn:B; [|discriminate].
  destruct (swing_high df j); [|discriminate].
  intro E. inversion E.
  apply Nat.leb_le in A, B. auto.
Qed.

(** X2.  The first two rows and the last three rows of a frame are never
    marked, neither as a bullish nor as a bearish fractal, whatever their
    prices: the loop stops one row short, so row [len - 3] is left NaN
    although its five-candle window lies inside the frame.  In particular a
    frame of fewer than 6 rows gets no mark at all. *)
Theorem border_rows_unmarked (df : DataFrame) bull bear (j : nat) :
  mark_fractals df = Ok (bull, bear) ->
  (j < 2 \/ length df <= j + 3)%nat ->
  (j < length df)%nat ->
  nth_error bull j = Some None /\ nth_error bear j = Some None.
Proof.
  rewrite mark_fractals_rows. intros H Hj Hlt. inversion H; subst.
  rewrite !nth_error_map_seq.
  replace (j <? length df)%nat with true by (symmetry; apply Nat.ltb_lt; lia).
  destruct (@unexamined_none df j) as [E1 E2]; [lia|].
  rewrite E1, E2. split; reflexivity.
Qed.

(** X3.  Two different rows marked as bullish fractals are at least three
    rows apart, and so are two rows marked as bearish fractals: the strict
    comparisons exclude marks on neighbouring rows and on rows two apart. *)
Theorem marks_three_apart (df : DataFrame) bull bear (j k : nat) (v w : Q) :
  mark_fractals df = Ok (bull, bear) ->
  (j < k)%nat ->
  (nth_error bull j = Some (Some v) -> nth_error bull k = Some (Some w) ->
   (j + 3 <= k)%nat) /\
  (nth_error bear j = Some (Some v) -> nth_error bear k = Some (Some w) ->
   (j + 3 <= k)%nat).
Proof.
  intros Hm Hjk. split; intros Hj Hk.
  - destruct (@marked_bull df bull bear j v Hm Hj) as (_ & _ & Sj & _).
    destruct (@marked_bull df bull bear k w Hm Hk) as (_ & _ & Sk & _).
    unfold swing_low in Sj, Sk.
    repeat (apply andb_true_iff in Sj; destruct Sj as [Sj ?]).
    repeat (apply andb_true_iff in Sk; destruct Sk as [Sk ?]).
    repeat match goal with
           | H : Qltb _ _ = true |- _ => apply Qltb_lt in H
           end.
    destruct (Nat.le_gt_cases (j + 3) k) as [|Hc]; [assumption|exfalso].
    assert (Hk' : k = S j \/ k = S (S j)) by lia.
    destruct Hk' as [E|E]; subst k.
    + replace (S j - 1)%nat with j in * by lia.
      replace (j + 1)%nat with (S j) in * by lia.
      match goal with
      | H1 : ?a < ?b, H2 : ?b < ?a |- _ =>
          exact (Qlt_irrefl _ (Qlt_trans _ _ _ H1 H2))
      end.
    + replace (S (S j) - 2)%nat with j in * by lia.
      replace (j + 2)%nat with (S (S j)) in * by lia.
      match goal with
      | H1 : ?a < ?b, H2 : ?b < ?a |- _ =>
          exact (Qlt_irrefl _ (Qlt_trans _ _ _ H1 H2))
      end.
  - destruct (@marked_bear df bull bear j v Hm Hj) as (_ & _ & Sj & _).
    destruct (@marked_bear df bull bear k w Hm Hk) as (_ & _ & Sk & _).
    unfold swing_high in Sj, Sk.
    repeat (apply andb_true_iff in Sj; destruct Sj as [Sj ?]).
    repeat (apply andb_true_iff in Sk; destruct Sk as [Sk ?]).
    repeat match goal with
           | H : Qltb _ _ = true |- _ => apply Qltb_lt in H
           end.
    destruct (Nat.le_gt_cases (j + 3) k) as [|Hc]; [assumption|exfalso].
    assert (Hk' : k = S j \/ k = S (S j)) by lia.
    destruct Hk' as [E|E]; subst k.
    + replace (S j - 1)%nat with j in * by lia.
      replace (j + 1)%nat with (S j) in * by lia.
      match goal with
      | H1 : ?a < ?b, H2 : ?b < ?a |- _ =>
          exact (Qlt_irrefl _ (Qlt_trans _ _ _ H1 H2))
      end.
    + replace (S (S j) - 2)%nat with j in * by lia.
      replace (j + 2)%nat with (S (S j)) in * by lia.
      match goal with
      | H1 : ?a < ?b, H2 : ?b < ?a |- _ =>
          exact (Qlt_irrefl _ (Qlt_trans _ _ _ H1 H2))
      end.
Qed.

Lemma swing_low_iff (df : DataFrame) (j : nat) :
  swing_low df j = true <->
  low_at df j < low_at df (j - 2) /\ low_at df j < low_at df (j - 1) /\
  low_at df j < low_at df (j + 1) /\ low_at df j < low_at df (j + 2).
Proof.
  unfold swing_low. rewrite !andb_true_iff, !Qltb_lt. tauto.
Qed.

Lemma swing_high_iff (df : DataFrame) (j : nat) :
  swing_high df j = true <->
  high_at df (j - 2) < high_at df j /\ high_at df (j - 1) < high_at df j /\
  high_at df (j + 1) < high_at df j /\ high_at df (j + 2) < high_at df j.
Proof.
  unfold swing_high. rewrite !andb_true_iff, !Qltb_lt. tauto.
Qed.

(** X1.  [mark_fractals] never raises and returns two lists with one entry
    per row.  [bull[j]] holds a value [v] exactly when [2 <= j <= len - 4],
    [v] is the low of row [j], and that low is strictly below the lows of
    rows [j-2], [j-1], [j+1] and [j+2]; [bear[j]] likewise with the high of
    row [j] strictly above the four neighbouring highs.  Every other entry
    is NaN. *)
Theorem mark_fractals_pointwise (df : DataFrame) :
  exists bull bear,
    mark_fractals df = Ok (bull, bear) /\
    length bull = length df /\ length bear = length df /\
    (forall j v, nth_error bull j = Some (Some v) <->
       (2 <= j)%nat /\ (j + 4 <= length df)%nat /\ v = low_at df j /\
       low_at df j < low_at df (j - 2) /\ low_at df j < low_at df (j - 1) /\
       low_at df j < low_at df (j + 1) /\ low_at df j < low_at df (j + 2)) /\
    (forall j v, nth_error bear j = Some (Some v) <->
       (2 <= j)%nat /\ (j + 4 <= length df)%nat /\ v = high_at df j /\
       high_at df (j - 2) < high_at df j /\ high_at df (j - 1) < high_at df j /\
       high_at df (j + 1) < high_at df j /\ high_at df (j + 2) < high_at df j).
Proof.
  eexists. eexists. split; [apply mark_fractals_rows|].
  rewrite !length_map, !length_seq. split; [reflexivity|].
  split; [reflexivity|]. split; intros j v.
  - split.
    + intro H.
      destruct (@marked_bull df _ _ j v (mark_fractals_rows df) H)
        as (A & B & S & E).
      apply swing_low_iff in S. tauto.
    + intros (A & B & E & S). rewrite nth_error_map_seq.
      replace (j <? length df)%nat with true
        by (symmetry; apply Nat.ltb_lt; lia).
      unfold bull_at, examined.
      replace (2 <=? j)%nat with true by (symmetry; apply Nat.leb_le; lia).
      replace (j + 4 <=? length df)%nat with true
        by (symmetry; apply Nat.leb_le; lia).
      apply swing_low_iff in S. rewrite S, E. reflexivity.
  - split.
    + intro H.
      destruct (@marked_bear df _ _ j v (mark_fractals_rows df) H)
        as (A & B & S & E).
      apply swing_high_iff in S. tauto.
    + intros (A & B & E & S). rewrite nth_error_map_seq.
      replace (j <? length df)%nat with true
        by (symmetry; apply Nat.ltb_lt; lia).
      unfold bear_at, examined.
      replace (2 <=? j)%nat with true by (symmetry; apply Nat.leb_le; lia).
      replace (j + 4 <=? length df)%nat with true
        by (symmetry; apply Nat.leb_le; lia).
      apply swing_high_iff in S. rewrite S, E. reflexivity.
Qed.

(** Row 106 of [Scenario.df_reentry] (109 rows) carries a high of 40
    between highs of 30, yet it is the third row from the end. *)
Lemma border_rows_unmarked_witness :
  nth_error (map (bull_at Scenario.df_reentry) (seq 0 109)) 106 = Some None /\
  nth_error (map (bear_at Scenario.df_reentry) (seq 0 109)) 106 = Some None.
Proof.
  apply (@border_rows_unmarked Scenario.df_reentry
           (map (bull_at Scenario.df_reentry) (seq 0 109))
           (map (bear_at Scenario.df_reentry) (seq 0 109)) 106).
  - vm_compute. reflexivity.
  - right. cbn. lia.
  - cbn. lia.
Defined.

(** The two bullish fractals of [Scenario.df_reentry], rows 100 and 103. *)
Lemma marks_three_apart_witness : (100 + 3 <= 103)%nat.
Proof.
  apply (proj1 (@marks_three_apart Scenario.df_reentry
           (map (bull_at Scenario.df_reentry) (seq 0 109))
           (map (bear_at Scenario.df_reentry) (seq 0 109))
           100 103 25 25 ltac:(vm_compute; reflexivity) ltac:(lia)));
    vm_compute; reflexivity.
Defined.

End FractalsProps.

(** * The pipeline: fractals, generator, backtest *)

Module PipelineProps.
Import Simulator.

Lemma for_each_invariant {S I} (body : S -> I -> result S) (P : S -> Prop) :
  (forall s i s', body s i = Ok s' -> P s -> P s') ->
  forall idx s s', for_each body idx s = Ok s' -> P s -> P s'.
Proof.
  intros Hbody. induction idx as [|i idx IH]; intros s s' H Hs; cbn in H.
  - inversion H; subst. exact Hs.
  - destruct (body s i) as [s1|e] eqn:E; cbn in H; [|discriminate].
    apply (IH s1 s' H). exact (Hbody s i s1 E Hs).
Qed.

Lemma loc_time (df : DataFrame) (i : nat) (r : Row) :
  loc df i = Ok r -> In (Time r) (map Time df).
Proof.
  unfold loc. destruct (nth_error df i) as [r'|] eqn:E; [|discriminate].
  intro H. inversion H; subst. apply in_map. exact (nth_error_In _ _ E).
Qed.

(** Every timestamp the scan records is the time of a row of the frame. *)
Lemma loop_body_timestamps df target st i st' :
  loop_body df target st i = Ok st' ->
  incl (timestamps st) (map Time df) ->
  incl (timestamps st') (map Time df).
Proof.
  intros H Hin. unfold loop_body in H.
  destruct (loc df i) as [r|] eqn:Er; cbn [bind] in H; [|discriminate].
  assert (Hopen : forall boundary,
            open_trade df target st i boundary = Ok st' ->
            incl (timestamps st') (map Time df)).
  { intros boundary Ho. unfold open_trade in Ho.
    destruct (loc df (i + 2)) as [r2|] eqn:E2; cbn [bind] in Ho;
      [|discriminate].
    inversion Ho; subst. cbn. apply incl_app; [exact Hin|].
    intros t [Et|[]]. subst t. exact (loc_time _ _ E2). }
  assert (Hstay : Ok st = Ok st' -> incl (timestamps st') (map Time df)).
  { intro E. inversion E; subst. exact Hin. }
  destruct (active_trade st).
  - destruct (Qleb (take_profit st) (High r) || Qltb (Low r) (stop_loss st));
      [|exact (Hstay H)].
    inversion H; subst. cbn. apply incl_app; [exact Hin|].
    intros t [Et|[]]. subst t. exact (loc_time _ _ Er).
  - destruct (Qltb (fifty_ema r) (twenty_ema r)
              && Qltb (one_hundred_ema r) (fifty_ema r)); [|exact (Hstay H)].
    destruct (bull_le (bull r) (twenty_ema r) && bull_gt (bull r) (fifty_ema r));
      [exact (Hopen _ H)|].
    destruct (bull_le (bull r) (fifty_ema r)
              && bull_gt (bull r) (one_hundred_ema r));
      [exact (Hopen _ H) | exact (Hstay H)].
Qed.

Lemma scan_timestamps df target st :
  scan df target = Ok st -> incl (timestamps st) (map Time df).
Proof.
  intro H. unfold scan in H.
  apply (for_each_invariant (loop_body df target)
           (fun s => incl (timestamps s) (map Time df))
           (@loop_body_timestamps df target) _ _ H).
  cbn. intros t [].
Qed.

Lemma incl_removelast {A} (l m : list A) : incl l m -> incl (removelast l) m.
Proof.
  intros H x Hx. apply H. destruct l as [|a l]; [contradiction|].
  assert (Hne : a :: l <> []) by discriminate.
  rewrite (app_removelast_last a Hne). apply in_or_app. left. exact Hx.
Qed.

Lemma simulate_trades_timestamps df target ts sg :
  simulate_trades df target = Ok (Some (ts, sg)) ->
  incl ts (map Time df).
Proof.
  unfold simulate_trades. destruct (length df <? 102)%nat; [discriminate|].
  destruct (scan df target) as [st|] eqn:Hs; cbn [bind]; [|discriminate].
  pose proof (scan_timestamps _ _ Hs) as Hin.
  destruct (last_item (signals st)) as [l|]; cbn [bind]; [|discriminate].
  destruct (l =? BUY)%Z; intro H; inversion H; subst.
  - apply incl_removelast. exact Hin.
  - exact Hin.
Qed.

Lemma combine_map_fst_snd {A B} (a : list A) : forall (b : list B),
  length a = length b ->
  map fst (combine a b) = a /\ map snd (combine a b) = b.
Proof.
  induction a as [|x a IH]; intros [|y b] H; cbn in *; try discriminate.
  - split; reflexivity.
  - destruct (IH b) as [E1 E2]; [lia|]. rewrite E1, E2. split; reflexivity.
Qed.

(** X4.  The generator's results feed the engine without a validation
    failure: when [simulate_trades] returns a pair, every timestamp in it
    is the time of a candle of the frame and the two lists have the same
    length, so [simple_backtest] on the same frame raises neither the
    timestamp [ValueError] nor an [IndexError]; its join stage succeeds. *)
Theorem generator_output_validates df target ts sg :
  simulate_trades df target = Ok (Some (ts, sg)) ->
  (forall t, In t ts -> In t (map Time df)) /\
  length ts = length sg /\
  (exists rows, Backtester.joined_rows df ts sg = Ok rows) /\
  Backtester.simple_backtest df ts sg <> Raise ValueError_timestamps /\
  Backtester.simple_backtest df ts sg <> Raise IndexError.
Proof.
  intro H.
  pose proof (simulate_trades_timestamps _ _ H) as Hin.
  destruct (SimulatorProps.simulate_trades_long df target) as [st Hst].
  { destruct (Nat.lt_ge_cases (length df) 102) as [Hs|Hl]; [|exact Hl].
    rewrite (SimulatorProps.simulate_trades_short df target Hs) in H.
    discriminate. }
  assert (Hlen : length ts = length sg).
  { destruct Hst as (Hscan & [Hl [k Hk]] & Hcase).
    destruct Hcase as [[_ E] | [[Hact E] | [Hact [_ E]]]];
      rewrite E in H; inversion H; subst; clear H.
    - rewrite Hact in Hk.
      rewrite !removelast_firstn_len, !length_firstn, Hl. reflexivity.
    - exact Hl. }
  assert (Hmiss : Backtester.missing_timestamp df ts = false).
  { destruct (Backtester.missing_timestamp df ts) eqn:E; [|reflexivity].
    apply BacktesterProps.missing_timestamp_iff in E.
    destruct E as [t [Ht Hn]]. exfalso. apply Hn, Hin, Ht. }
  assert (Hrows : exists rows, Backtester.joined_rows df ts sg = Ok rows).
  { destruct (combine_map_fst_snd ts sg Hlen) as [E1 E2].
    pose proof (BacktesterProps.joined_rows_pairs df (combine ts sg)) as J.
    rewrite E1, E2, Hmiss in J. eexists. exact J. }
  split; [exact Hin|]. split; [exact Hlen|]. split; [exact Hrows|].
  destruct Hrows as [rows Hrows].
  unfold Backtester.simple_backtest. rewrite Hrows. cbn [bind].
  split; intro E; apply BacktesterProps.summarize_raises in E; discriminate.
Qed.

(** The four signals of [Scenario.df_reentry]. *)
Lemma generator_output_validates_witness :
  (forall t, In t [Scenario.minute 102; Scenario.minute 101;
                   Scenario.minute 105; Scenario.minute 106] ->
             In t (map Time Scenario.df_reentry)) /\
  length [Scenario.minute 102; Scenario.minute 101;
          Scenario.minute 105; Scenario.minute 106]
    = length [BUY; SELL; BUY; SELL] /\
  (exists rows,
     Backtester.joined_rows Scenario.df_reentry
       [Scenario.minute 102; Scenario.minute 101;
        Scenario.minute 105; Scenario.minute 106]
       [BUY; SELL; BUY; SELL] = Ok rows) /\
  Backtester.simple_backtest Scenario.df_reentry
    [Scenario.minute 102; Scenario.minute 101;
     Scenario.minute 105; Scenario.minute 106]
    [BUY; SELL; BUY; SELL] <> Raise ValueError_timestamps /\
  Backtester.simple_backtest Scenario.df_reentry
    [Scenario.minute 102; Scenario.minute 101;
     Scenario.minute 105; Scenario.minute 106]
    [BUY; SELL; BUY; SELL] <> Raise IndexError.
Proof.
  apply (@generator_output_validates Scenario.df_reentry (3 # 2)).
  vm_compute. reflexivity.
Defined.

(** X5.  [simulate_trades] never raises [KeyError]: every row it reads lies
    inside the frame.  It returns [None] exactly on frames of fewer than
    102 rows, and it raises, with [IndexError], exactly on frames of at
    least 102 rows on which the scan records no signal. *)
Theorem simulate_trades_outcomes df target :
  (forall e, simulate_trades df target = Raise e -> e = IndexError) /\
  (simulate_trades df target = Ok None <-> (length df < 102)%nat) /\
  (simulate_trades df target = Raise IndexError <->
   (102 <= length df)%nat /\
   exists st, scan df target = Ok st /\ signals st = []).
Proof.
  destruct (Nat.lt_ge_cases (length df) 102) as [Hs|Hl].
  - rewrite (SimulatorProps.simulate_trades_short df target Hs).
    split; [discriminate|]. split.
    + split; [intros _; exact Hs | reflexivity].
    + split; [discriminate | intros [H _]; lia].
  - destruct (SimulatorProps.simulate_trades_long df target Hl)
      as (st & Hscan & _ & Hcase).
    destruct Hcase as [[Hnil E] | [[Hact E] | [Hact [Hne E]]]]; rewrite E.
    + split; [intros e He; inversion He; reflexivity|]. split.
      * split; [discriminate | lia].
      * split; [|reflexivity]. intros _. split; [exact Hl|].
        exists st. split; assumption.
    + split; [discriminate|]. split.
      * split; [discriminate | lia].
      * split; [discriminate|]. intros [_ [st' [Hs' Hn]]].
        rewrite Hscan in Hs'. inversion Hs'; subst st'.
        destruct (SimulatorProps.scan_total df target) as [st2 [Hs2 [_ [k Hk]]]].
        rewrite Hscan in Hs2. inversion Hs2; subst st2.
        rewrite Hact, Hn in Hk. destruct (bracketed k); discriminate.
    + split; [discriminate|]. split.
      * split; [discriminate | lia].
      * split; [discriminate|]. intros [_ [st' [Hs' Hn]]].
        rewrite Hscan in Hs'. inversion Hs'; subst st'. contradiction.
Qed.

Lemma nth_error_combine {A B} (a : list A) : forall (b : list B) i x y,
  nth_error a i = Some x -> nth_error b i = Some y ->
  nth_error (combine a b) i = Some (x, y).
Proof.
  induction a as [|h a IH]; intros [|k b] [|i] x y Ha Hb; cbn in *;
    try discriminate.
  - inversion Ha; inversion Hb; reflexivity.
  - apply IH; assumption.
Qed.

Lemma with_bull_row df bulls bears i r :
  Fractals.mark_fractals df = Ok (bulls, bears) ->
  nth_error df i = Some r ->
  exists r', nth_error (Fractals.with_bull df bulls) i = Some r' /\
             bull r' = Fractals.bull_at df i /\
             twenty_ema r' = twenty_ema r /\ fifty_ema r' = fifty_ema r /\
             one_hundred_ema r' = one_hundred_ema r.
Proof.
  rewrite FractalsProps.mark_fractals_rows. intros H Hr.
  inversion H; subst; clear H.
  assert (Hi : (i < length df)%nat)
    by (apply nth_error_Some; rewrite Hr; discriminate).
  unfold Fractals.with_bull. rewrite nth_error_map.
  rewrite (nth_error_combine df _ i Hr (y := Fractals.bull_at df i)).
  - cbn. eexists. split; [reflexivity|]. cbn. repeat split; reflexivity.
  - rewrite FractalsProps.nth_error_map_seq.
    replace (i <? length df)%nat with true
      by (symmetry; apply Nat.ltb_lt; exact Hi).
    reflexivity.
Qed.

(** X6.  On a frame whose [bull] column was filled by [mark_fractals], the
    generator in its flat state does nothing at a row that is not a strict
    five-candle swing low, and nothing at the first two or the last three
    rows of the frame whatever their prices; so the last row of the scan,
    row [len - 3], never opens a trade. *)
Theorem no_entry_without_swing_low df bulls bears target st i :
  Fractals.mark_fractals df = Ok (bulls, bears) ->
  active_trade st = false ->
  (i < length df)%nat ->
  ((i < 2)%nat \/ (length df <= i + 3)%nat \/
   ~ (Fractals.low_at df i < Fractals.low_at df (i - 2) /\
      Fractals.low_at df i < Fractals.low_at df (i - 1) /\
      Fractals.low_at df i < Fractals.low_at df (i + 1) /\
      Fractals.low_at df i < Fractals.low_at df (i + 2))) ->
  loop_body (Fractals.with_bull df bulls) target st i = Ok st.
Proof.
  intros Hm Hflat Hi Hcase.
  destruct (nth_error df i) as [r|] eqn:Hr;
    [|apply nth_error_None in Hr; lia].
  destruct (@with_bull_row df bulls bears i r Hm Hr) as (r' & Hr' & Hb & _).
  assert (Hnone : Fractals.bull_at df i = None).
  { destruct Hcase as [H | [H | H]].
    - apply (@FractalsProps.unexamined_none df i). lia.
    - apply (@FractalsProps.unexamined_none df i). lia.
    - unfold Fractals.bull_at.
      rewrite (SimulatorProps.not_true_false
                 (FractalsProps.swing_low_iff df i) H).
      rewrite andb_false_r. reflexivity. }
  unfold loop_body, loc. rewrite Hr', Hflat. cbn [bind].
  rewrite Hb, Hnone. cbn [bull_le bull_gt andb].
  destruct (Qltb (fifty_ema r') (twenty_ema r')
            && Qltb (one_hundred_ema r') (fifty_ema r')); reflexivity.
Qed.

(** Row 106 of [Scenario.df_reentry], third from the end, with the marks
    of [mark_fractals] in the [bull] column. *)
Lemma no_entry_without_swing_low_witness :
  loop_body (Fractals.with_bull Scenario.df_reentry
               (map (Fractals.bull_at Scenario.df_reentry) (seq 0 109)))
            (3 # 2) init 106 = Ok init.
Proof.
  apply (@no_entry_without_swing_low Scenario.df_reentry
           (map (Fractals.bull_at Scenario.df_reentry) (seq 0 109))
           (map (Fractals.bear_at Scenario.df_reentry) (seq 0 109))).
  - vm_compute. reflexivity.
  - reflexivity.
  - cbn. lia.
  - right. left. cbn. lia.
Defined.

End PipelineProps.

(** * Further properties of the backtest engine *)

Module BacktesterExtra.
Import Backtester.

Lemma Qsum_snoc (l : list Q) (x : Q) : Qsum (l ++ [x]) = Qsum l + x.
Proof. unfold Qsum. rewrite fold_left_app. reflexivity. Qed.

Lemma init_balanced : balanced init.
Proof. unfold balanced. cbn. repeat split; reflexivity. Qed.

Lemma step_balanced (a : Account) (row : Z * Q * Z) :
  balanced a -> balanced (step a row).
Proof.
  destruct row as [[time close] signal]. intros (Hpv & Hprev & Hw).
  unfold step. destruct (position a) eqn:Hpos; cbn [negb andb].
  - destruct (signal =? SELL)%Z.
    + unfold balanced.
      cbn [portfolio_value trade_gain_losses position prev_portfolio_value
           wins].
      split; [|split; [discriminate|]].
      * rewrite Qsum_snoc, (Hprev eq_refl), Hpv. ring.
      * rewrite filter_app, length_app. cbn [filter].
        destruct (Qleb 0 _); cbn [length]; lia.
    + unfold balanced. rewrite Hpos. auto.
  - destruct (signal =? BUY)%Z.
    + unfold balanced.
      cbn [portfolio_value trade_gain_losses position prev_portfolio_value
           wins].
      auto.
    + unfold balanced. rewrite Hpos. auto.
Qed.

Lemma replay_from_balanced (rows : list (Z * Q * Z)) : forall a,
  balanced a -> balanced (replay_from a rows).
Proof.
  induction rows as [|row rows IH]; intros a Ha; cbn.
  - exact Ha.
  - apply IH, step_balanced, Ha.
Qed.

Lemma replay_balanced (rows : list (Z * Q * Z)) : balanced (replay rows).
Proof. apply replay_from_balanced, init_balanced. Qed.

(** A returned record is the summary of the replayed account. *)
Lemma simple_backtest_ok df ts sg r :
  simple_backtest df ts sg = Ok r ->
  exists rows, joined_rows df ts sg = Ok rows /\
               summarize (replay rows) = Ok r.
Proof.
  unfold simple_backtest.
  destruct (joined_rows df ts sg) as [rows|]; cbn [bind]; [|discriminate].
  intro H. exists rows. split; [reflexivity | exact H].
Qed.

Lemma summarize_fields (a : Account) (r : BacktestResult) :
  summarize a = Ok r ->
  res_buy_times r = buy_times a /\ res_sell_times r = sell_times a /\
  res_trade_times r = trade_times a /\
  res_trade_gain_losses r = trade_gain_losses a /\
  res_trade_perc_gain_losses r = trade_perc_gain_losses a /\
  num_wins r = wins a /\ num_trades r = trades a /\
  end_portfolio_value r = portfolio_value a /\
  percentage_gain r = (portfolio_value a - 100) / 100 /\
  win_rate r = (if (0 <? trades a)%Z
                then inject_Z (wins a) / inject_Z (trades a) else 0).
Proof.
  unfold summarize. destruct (holding_time a); cbn [bind]; [|discriminate].
  intro H. inversion H; subst; cbn. repeat split; reflexivity.
Qed.

Lemma win_rate_bounds (w t : Z) :
  (0 <= w <= t)%Z ->
  0 <= (if (0 <? t)%Z then inject_Z w / inject_Z t else 0) <= 1.
Proof.
  intros [H0 Hwt]. destruct (0 <? t)%Z eqn:E.
  - apply Z.ltb_lt in E.
    assert (Ht : 0 < inject_Z t) by (unfold Qlt; cbn; lia).
    split.
    + apply Qle_shift_div_l; [exact Ht|]. rewrite Qmult_0_l.
      unfold Qle; cbn; lia.
    + apply Qle_shift_div_r; [exact Ht|]. rewrite Qmult_1_l.
      unfold Qle; cbn; lia.
  - split; discriminate.
Qed.

(** X7.  In every record the engine returns: [num_trades] is the number of
    sell times, of trade times, of gains and of percentage gains;
    [trade_times] equals [sell_times]; [buy_times] has as many entries as
    [sell_times] or one more; [num_wins] is the number of trades whose gain
    is not negative; [0 <= num_wins <= num_trades] and
    [0 <= win_rate <= 1]. *)
Theorem result_counts (df : DataFrame) (ts sg : list Z) (r : BacktestResult) :
  simple_backtest df ts sg = Ok r ->
  num_trades r = Z.of_nat (length (res_sell_times r)) /\
  res_trade_times r = res_sell_times r /\
  length (res_trade_gain_losses r) = length (res_sell_times r) /\
  length (res_trade_perc_gain_losses r) = length (res_sell_times r) /\
  (length (res_buy_times r) = length (res_sell_times r) \/
   length (res_buy_times r) = S (length (res_sell_times r))) /\
  num_wins r
    = Z.of_nat (length (filter (Qleb 0) (res_trade_gain_losses r))) /\
  (0 <= num_wins r <= num_trades r)%Z /\
  0 <= win_rate r <= 1.
Proof.
  intro H. destruct (simple_backtest_ok _ _ _ H) as (rows & _ & Hs).
  destruct (summarize_fields _ Hs)
    as (Eb & Es & Et & Eg & Ep & Ew & En & _ & _ & Er).
  destruct (BacktesterProps.replay_consistent rows)
    as (Htr & Hg & Hp & Htt & Hb & Hw & _).
  destruct (replay_balanced rows) as (_ & _ & Hc).
  rewrite Eb, Es, Et, Eg, Ep, Ew, En, Er.
  split; [exact Htr|]. split; [exact Htt|]. split; [exact Hg|].
  split; [exact Hp|]. split.
  - rewrite Hb. destruct (position (replay rows)); [right | left]; lia.
  - split; [exact Hc|]. split; [exact Hw|]. apply win_rate_bounds, Hw.
Qed.

Lemma result_counts_witness :
  exists r,
    simple_backtest Scenario.df_A [0; 120000]%Z [BUY; SELL] = Ok r /\
    0 <= win_rate r <= 1.
Proof.
  destruct (simple_backtest Scenario.df_A [0; 120000]%Z [BUY; SELL])
    as [r|] eqn:E; [|vm_compute in E; discriminate].
  exists r. split; [reflexivity|].
  apply (@result_counts Scenario.df_A [0; 120000]%Z [BUY; SELL] r E).
Defined.



(** ** The sort order and the two input lists *)

Lemma argsort_perm (ts : list Z) :
  Permutation (argsort ts) (seq 0 (length ts)).
Proof.
  unfold argsort.
  apply perm_trans with (map snd (combine ts (seq 0 (length ts)))).
  - apply Permutation_map, BacktesterProps.sort_by_perm.
  - destruct (PipelineProps.combine_map_fst_snd ts (seq 0 (length ts)))
      as [_ E]; [rewrite length_seq; reflexivity|].
    rewrite E. apply Permutation_refl.
Qed.

Lemma argsort_bound (ts : list Z) (i : nat) :
  In i (argsort ts) <-> (i < length ts)%nat.
Proof.
  split; intro H.
  - apply (Permutation_in _ (argsort_perm ts)) in H.
    apply in_seq in H. lia.
  - apply (Permutation_in _ (Permutation_sym (argsort_perm ts))).
    apply in_seq. lia.
Qed.

Lemma take_in_range {A} (arr : list A) (idx : list nat) :
  (forall i, In i idx -> (i < length arr)%nat) ->
  exists xs, take arr idx = Ok xs.
Proof.
  induction idx as [|i idx IH]; intro H; cbn.
  - eexists. reflexivity.
  - destruct (nth_error arr i) eqn:E.
    + destruct IH as [xs Hxs]; [intros; apply H; right; assumption|].
      rewrite Hxs. eexists. reflexivity.
    + apply nth_error_None in E. specialize (H i (or_introl eq_refl)). lia.
Qed.

Lemma take_out_of_range {A} (arr : list A) (idx : list nat) (i : nat) :
  In i idx -> (length arr <= i)%nat -> take arr idx = Raise IndexError.
Proof.
  induction idx as [|j idx IH]; intros Hin Hi; [contradiction|]. cbn.
  destruct (nth_error arr j) eqn:E; [|reflexivity].
  destruct Hin as [Ej | Hin].
  - subst j. apply nth_error_None in Hi. congruence.
  - rewrite (IH Hin Hi). reflexivity.
Qed.

Lemma take_firstn {A} (arr : list A) (n : nat) (idx : list nat) :
  (forall i, In i idx -> (i < n)%nat) ->
  take (firstn n arr) idx = take arr idx.
Proof.
  induction idx as [|i idx IH]; intro H; cbn; [reflexivity|].
  rewrite nth_error_firstn.
  replace (i <? n)%nat with true
    by (symmetry; apply Nat.ltb_lt, H; left; reflexivity).
  rewrite IH by (intros; apply H; right; assumption). reflexivity.
Qed.

Lemma take_incl {A} (arr : list A) (idx : list nat) : forall xs,
  take arr idx = Ok xs -> incl xs arr.
Proof.
  induction idx as [|i idx IH]; intros xs H; cbn in H.
  - inversion H. intros x [].
  - destruct (nth_error arr i) as [x|] eqn:E; [|discriminate].
    destruct (take arr idx) as [ys|]; cbn in H; [|discriminate].
    inversion H; subst. intros y [Ey | Hy].
    + subst y. exact (nth_error_In _ _ E).
    + exact (IH ys eq_refl y Hy).
Qed.

Lemma joined_rows_raises df ts sg e :
  joined_rows df ts sg = Raise e ->
  (e = ValueError_timestamps /\ missing_timestamp df ts = true) \/
  (e = IndexError /\ missing_timestamp df ts = false /\
   take sg (argsort ts) = Raise IndexError).
Proof.
  unfold joined_rows. destruct (missing_timestamp df ts).
  - intro H. inversion H. left. split; reflexivity.
  - destruct (@take_in_range Z ts (argsort ts)) as [ts' E1];
      [intros i Hi; apply argsort_bound, Hi|].
    rewrite E1. cbn [bind].
    destruct (take sg (argsort ts)) as [sg'|e'] eqn:E2; cbn [bind];
      [discriminate|].
    intro H. inversion H; subst.
    pose proof (BacktesterProps.take_raises _ _ E2). subst e.
    right. auto.
Qed.

(** X9.  [simple_backtest] raises [IndexError] exactly when every
    timestamp is a candle time of the frame and the signal list is shorter
    than the timestamp list. *)
Theorem index_error_iff (df : DataFrame) (ts sg : list Z) :
  simple_backtest df ts sg = Raise IndexError <->
  (forall t, In t ts -> In t (map Time df)) /\
  (length sg < length ts)%nat.
Proof.
  assert (Hmiss : missing_timestamp df ts = false <->
                  forall t, In t ts -> In t (map Time df)).
  { split.
    - intros E t Ht.
      destruct (in_dec Z.eq_dec t (map Time df)) as [|N]; [assumption|].
      assert (missing_timestamp df ts = true)
        by (apply BacktesterProps.missing_timestamp_iff; eauto).
      congruence.
    - intro H. destruct (missing_timestamp df ts) eqn:E; [|reflexivity].
      apply BacktesterProps.missing_timestamp_iff in E.
      destruct E as [t [Ht N]]. exfalso. exact (N (H t Ht)). }
  rewrite <- Hmiss. unfold simple_backtest. split.
  - destruct (joined_rows df ts sg) as [rows|e] eqn:J; cbn [bind].
    + intro H. apply BacktesterProps.summarize_raises in H. discriminate.
    + intro H. inversion H; subst e.
      destruct (joined_rows_raises _ _ _ J) as [[E _] | (_ & M & T)];
        [discriminate|].
      split; [exact M|].
      destruct (Nat.lt_ge_cases (length sg) (length ts)) as [|Hge];
        [assumption|exfalso].
      destruct (@take_in_range Z sg (argsort ts)) as [xs Hxs].
      * intros i Hi. apply argsort_bound in Hi. lia.
      * congruence.
  - intros [M Hlt]. unfold joined_rows. rewrite M.
    destruct (@take_in_range Z ts (argsort ts)) as [ts' E1];
      [intros i Hi; apply argsort_bound, Hi|].
    rewrite E1. cbn [bind].
    rewrite (@take_out_of_range Z sg (argsort ts) (length sg));
      [reflexivity | apply argsort_bound; exact Hlt | lia].
Qed.

(** Scenario A's two timestamps with a single signal. *)
Lemma index_error_witness :
  simple_backtest Scenario.df_A [0; 120000]%Z [BUY] = Raise IndexError.
Proof.
  apply (proj2 (index_error_iff Scenario.df_A [0; 120000]%Z [BUY])).
  split; [|cbn; lia].
  intros t [E | [E | []]]; subst t; cbn; auto.
Defined.

(** X10.  Signals beyond the length of the timestamp list are never read:
    the engine's outcome is the one for the signal list cut to that
    length. *)
Theorem surplus_signals_ignored (df : DataFrame) (ts sg : list Z) :
  simple_backtest df ts sg
  = simple_backtest df ts (firstn (length ts) sg).
Proof.
  unfold simple_backtest, joined_rows.
  rewrite (@take_firstn Z sg (length ts) (argsort ts))
    by (intros i Hi; apply argsort_bound, Hi).
  reflexivity.
Qed.

(** ** Signals that are neither BUY nor SELL *)

Lemma dropna_matches_signal (T : Z) (C : Q) (l : list (Z * Z)) t c s :
  In (t, c, s) (dropna (map (fun x : Z * Z => (T, C, Some (snd x))) l)) ->
  In s (map snd l).
Proof.
  induction l as [|[u v] l IHl]; cbn; [intros []|].
  intros [E | Hl].
  - inversion E; subst. left. reflexivity.
  - right. exact (IHl Hl).
Qed.

Lemma merge_left_signals_incl (df : DataFrame) (S : list (Z * Z)) t c s :
  In (t, c, s) (dropna (merge_left df S)) -> In s (map snd S).
Proof.
  unfold merge_left. induction df as [|r df IH]; cbn [flat_map];
    [intros []|].
  rewrite BacktesterProps.dropna_app, in_app_iff.
  intros [H | H]; [|exact (IH H)].
  assert (Hsub : incl (filter (fun x => (fst x =? Time r)%Z) S) S)
    by (intros x Hx; apply filter_In in Hx; tauto).
  destruct (filter (fun x => (fst x =? Time r)%Z) S) as [|m ms] eqn:F;
    [destruct H|].
  apply dropna_matches_signal in H.
  apply in_map_iff in H. destruct H as [x [Ex Hx]]. subst s.
  apply in_map. apply Hsub. exact Hx.
Qed.

Lemma joined_rows_signals df ts sg rows t c s :
  joined_rows df ts sg = Ok rows -> In (t, c, s) rows -> In s sg.
Proof.
  unfold joined_rows. destruct (missing_timestamp df ts); [discriminate|].
  destruct (take ts (argsort ts)) as [ts'|]; cbn [bind]; [|discriminate].
  destruct (take sg (argsort ts)) as [sg'|] eqn:E; cbn [bind]; [|discriminate].
  intros H Hin. inversion H; subst rows.
  apply merge_left_signals_incl in Hin. apply in_map_iff in Hin.
  destruct Hin as [[u v] [Ev Hin]]. cbn in Ev. subst v.
  apply (take_incl _ _ E). exact (in_combine_r _ _ _ _ Hin).
Qed.

Lemma replay_from_idle (rows : list (Z * Q * Z)) (a : Account) :
  (forall t c s, In (t, c, s) rows -> s <> BUY /\ s <> SELL) ->
  replay_from a rows = a.
Proof.
  induction rows as [|[[t c] s] rows IH]; intro H; cbn; [reflexivity|].
  destruct (H t c s (or_introl eq_refl)) as [Hb Hs].
  unfold step.
  replace (s =? BUY)%Z with false by (symmetry; apply Z.eqb_neq; exact Hb).
  replace (s =? SELL)%Z with false by (symmetry; apply Z.eqb_neq; exact Hs).
  rewrite !andb_false_r. apply IH. intros; eapply H; right; eassumption.
Qed.

(** X11.  Signal values other than 1 and -1 (such as 0, "no action") never
    touch the account: when no signal of the list is BUY or SELL and the
    join succeeds, the replay ends in the initial account and the engine
    returns the record of a backtest without trades, with empty trade
    lists. *)
Theorem non_trade_signals_ignored (df : DataFrame) (ts sg : list Z)
        (rows : list (Z * Q * Z)) :
  joined_rows df ts sg = Ok rows ->
  (forall s, In s sg -> s <> BUY /\ s <> SELL) ->
  replay rows = init /\
  exists r, simple_backtest df ts sg = Ok r /\ zero_summary r /\
            res_buy_times r = [] /\ res_sell_times r = [].
Proof.
  intros Hj Hs.
  assert (E : replay rows = init).
  { apply replay_from_idle. intros t c s Hin.
    apply Hs. exact (@joined_rows_signals df ts sg rows t c s Hj Hin). }
  split; [exact E|].
  unfold simple_backtest. rewrite Hj. cbn [bind]. rewrite E.
  eexists. split; [reflexivity|]. unfold zero_summary. cbn.
  repeat split; reflexivity.
Qed.

Lemma non_trade_signals_ignored_witness :
  replay [(0%Z, 100, 0%Z); (60000%Z, 110, 2%Z)] = init /\
  exists r, simple_backtest Scenario.df_A [0; 60000]%Z [0; 2]%Z = Ok r /\
            zero_summary r /\
            res_buy_times r = [] /\ res_sell_times r = [].
Proof.
  apply (@non_trade_signals_ignored Scenario.df_A [0; 60000]%Z [0; 2]%Z).
  - reflexivity.
  - intros s [E | [E | []]]; subst s; split; discriminate.
Defined.

(** ** Candles and the times of trades *)

Lemma existsb_ext_in {A} (f g : A -> bool) (l : list A) :
  (forall x, In x l -> f x = g x) -> existsb f l = existsb g l.
Proof.
  induction l as [|x l IH]; intro H; cbn; [reflexivity|].
  rewrite (H x (or_introl eq_refl)), IH; [reflexivity|].
  intros; apply H; right; assumption.
Qed.

Lemma missing_timestamp_skip (df1 df2 : DataFrame) (r : Row) (ts : list Z) :
  ~ In (Time r) ts ->
  missing_timestamp (df1 ++ r :: df2) ts = missing_timestamp (df1 ++ df2) ts.
Proof.
  intro Hn. unfold missing_timestamp. apply existsb_ext_in. intros t Ht.
  rewrite !map_app, !existsb_app. cbn [map existsb].
  replace (t =? Time r)%Z with false; [reflexivity|].
  symmetry. apply Z.eqb_neq. intro E. subst t. exact (Hn Ht).
Qed.

Lemma filter_no_match (S : list (Z * Z)) (t : Z) :
  ~ In t (map fst S) -> filter (fun s => (fst s =? t)%Z) S = [].
Proof.
  induction S as [|[u v] S IH]; intro H; cbn; [reflexivity|].
  destruct (u =? t)%Z eqn:E.
  - apply Z.eqb_eq in E. subst u. exfalso. apply H. left. reflexivity.
  - apply IH. intro Hin. apply H. right. exact Hin.
Qed.

Lemma merge_left_skip (df1 df2 : DataFrame) (r : Row) (S : list (Z * Z)) :
  ~ In (Time r) (map fst S) ->
  dropna (merge_left (df1 ++ r :: df2) S) = dropna (merge_left (df1 ++ df2) S).
Proof.
  intro H. unfold merge_left. rewrite !flat_map_app. cbn [flat_map].
  rewrite (filter_no_match S (Time r) H).
  rewrite !BacktesterProps.dropna_app. reflexivity.
Qed.

(** X12.  A candle whose time carries no signal does not matter: removing
    it from the frame, wherever it stands, leaves the engine's outcome,
    record or error, unchanged. *)
Theorem unsignalled_candle_irrelevant (df1 df2 : DataFrame) (r : Row)
        (ts sg : list Z) :
  ~ In (Time r) ts ->
  simple_backtest (df1 ++ r :: df2) ts sg = simple_backtest (df1 ++ df2) ts sg.
Proof.
  intro Hn. unfold simple_backtest, joined_rows.
  rewrite (missing_timestamp_skip df1 df2 r ts Hn).
  destruct (missing_timestamp (df1 ++ df2) ts); [reflexivity|].
  destruct (take ts (argsort ts)) as [ts'|] eqn:E1; cbn [bind]; [|reflexivity].
  destruct (take sg (argsort ts)) as [sg'|] eqn:E2; cbn [bind]; [|reflexivity].
  rewrite merge_left_skip; [reflexivity|].
  intro Hin. apply Hn. apply (take_incl _ _ E1).
  apply in_map_iff in Hin. destruct Hin as [[u v] [Eu Hin]]. cbn in Eu.
  subst u. exact (in_combine_l _ _ _ _ Hin).
Qed.

(** Scenario A without its middle candle, which carries no signal. *)
Lemma unsignalled_candle_irrelevant_witness :
  simple_backtest Scenario.df_A [0; 120000]%Z [BUY; SELL]
  = simple_backtest [Scenario.candle 0 100; Scenario.candle 120000 90]
                    [0; 120000]%Z [BUY; SELL].
Proof.
  apply (@unsignalled_candle_irrelevant
           [Scenario.candle 0 100] [Scenario.candle 120000 90]
           (Scenario.candle 60000 110) [0; 120000]%Z [BUY; SELL]).
  cbn. intuition discriminate.
Defined.

Lemma dropna_matches_time (T : Z) (C : Q) (l : list (Z * Z)) t :
  In t (row_times
          (dropna (map (fun x : Z * Z => (T, C, Some (snd x))) l))) ->
  t = T /\ l <> [].
Proof.
  induction l as [|[u v] l IHl]; cbn; [intros []|].
  intros [E | Hl]; [split; [auto | discriminate]|].
  split; [exact (proj1 (IHl Hl)) | discriminate].
Qed.

Lemma merge_left_times_signalled (df : DataFrame) (S : list (Z * Z)) t :
  In t (row_times (dropna (merge_left df S))) -> In t (map fst S).
Proof.
  unfold merge_left, row_times. induction df as [|r df IH]; cbn [flat_map];
    [intros []|].
  rewrite BacktesterProps.dropna_app, map_app, in_app_iff.
  intros [H | H]; [|exact (IH H)].
  destruct (filter (fun x => (fst x =? Time r)%Z) S) as [|m ms] eqn:F;
    [destruct H|].
  apply dropna_matches_time in H. destruct H as [Et _]. subst t.
  assert (Hm : In m (filter (fun x => (fst x =? Time r)%Z) S))
    by (rewrite F; left; reflexivity).
  apply filter_In in Hm. destruct Hm as [Hm Em].
  apply Z.eqb_eq in Em. rewrite <- Em. apply in_map. exact Hm.
Qed.

Lemma replay_from_times (rows : list (Z * Q * Z)) : forall a,
  incl (buy_times (replay_from a rows)) (buy_times a ++ row_times rows) /\
  incl (sell_times (replay_from a rows)) (sell_times a ++ row_times rows).
Proof.
  induction rows as [|[[t c] s] rows IH]; intro a; cbn [replay_from fold_left].
  - rewrite !app_nil_r. split; apply incl_refl.
  - destruct (IH (step a (t, c, s))) as [Hb Hs]. fold (replay_from (step a (t, c, s)) rows) in Hb, Hs.
    assert (Hstep : incl (buy_times (step a (t, c, s))) (buy_times a ++ [t])
                    /\ incl (sell_times (step a (t, c, s)))
                            (sell_times a ++ [t])).
    { unfold step.
      destruct (negb (position a) && (s =? BUY)%Z); cbn.
      - split; [apply incl_refl | apply incl_appl, incl_refl].
      - destruct (position a && (s =? SELL)%Z); cbn.
        + split; [apply incl_appl, incl_refl | apply incl_refl].
        + split; apply incl_appl, incl_refl. }
    destruct Hstep as [Sb Ss].
    unfold row_times. cbn [map fst].
    split; intros x Hx.
    + apply Hb in Hx. apply in_app_iff in Hx. destruct Hx as [Hx | Hx].
      * apply Sb in Hx. apply in_app_iff in Hx.
        destruct Hx as [Hx | [Hx | []]]; apply in_app_iff; [left; assumption|].
        right. left. exact Hx.
      * apply in_app_iff. right. right. exact Hx.
    + apply Hs in Hx. apply in_app_iff in Hx. destruct Hx as [Hx | Hx].
      * apply Ss in Hx. apply in_app_iff in Hx.
        destruct Hx as [Hx | [Hx | []]]; apply in_app_iff; [left; assumption|].
        right. left. exact Hx.
      * apply in_app_iff. right. right. exact Hx.
Qed.

(** X13.  Every buy time and every sell time of a returned record is both
    one of the supplied signal timestamps and the time of a candle of the
    frame. *)
Theorem trade_times_are_signalled_candles (df : DataFrame) (ts sg : list Z)
        (r : BacktestResult) (t : Z) :
  simple_backtest df ts sg = Ok r ->
  In t (res_buy_times r) \/ In t (res_sell_times r) ->
  In t ts /\ In t (map Time df).
Proof.
  intros H Hin. destruct (simple_backtest_ok _ _ _ H) as (rows & Hj & Hs).
  destruct (summarize_fields _ Hs) as (Eb & Es & _).
  rewrite Eb, Es in Hin.
  assert (Hrow : In t (row_times rows)).
  { destruct (replay_from_times rows init) as [Hb Hsl]. cbn in Hb, Hsl.
    destruct Hin as [Hin | Hin]; [exact (Hb t Hin) | exact (Hsl t Hin)]. }
  unfold joined_rows in Hj.
  destruct (missing_timestamp df ts); [discriminate|].
  destruct (take ts (argsort ts)) as [ts'|] eqn:E1; cbn [bind] in Hj;
    [|discriminate].
  destruct (take sg (argsort ts)) as [sg'|] eqn:E2; cbn [bind] in Hj;
    [|discriminate].
  inversion Hj; subst rows. split.
  - apply merge_left_times_signalled in Hrow.
    apply (take_incl _ _ E1).
    apply in_map_iff in Hrow. destruct Hrow as [[u v] [Eu Hu]]. cbn in Eu.
    subst u. exact (in_combine_l _ _ _ _ Hu).
  - exact (BacktesterProps.merge_left_times_incl _ _ _ Hrow).
Qed.

Lemma trade_times_are_signalled_candles_witness :
  In 0%Z [0; 120000]%Z /\ In 0%Z (map Time Scenario.df_A).
Proof.
  destruct (simple_backtest Scenario.df_A [0; 120000]%Z [BUY; SELL])
    as [r|] eqn:E; [|vm_compute in E; discriminate].
  apply (@trade_times_are_signalled_candles Scenario.df_A
           [0; 120000]%Z [BUY; SELL] r 0%Z E).
  left. vm_compute in E. inversion E. left. reflexivity.
Defined.

(** ** Time order *)











(** ** One trade *)



End BacktesterExtra.

(** * Properties of the indicators *)

Module DataManagerProps.
Import DataManager.

Lemma length_shift (k : nat) (l : list Q) : length (shift k l) = length l.
Proof.
  unfold shift. rewrite length_firstn, length_app, repeat_length, length_map.
  lia.
Qed.

Lemma nth_error_shift (k : nat) (l : list Q) (i : nat) :
  nth_error (shift k l) i =
  if (i <? length l)%nat
  then (if (i <? k)%nat then Some None
        else option_map Some (nth_error l (i - k)))
  else None.
Proof.
  unfold shift. rewrite nth_error_firstn.
  destruct (i <? length l)%nat eqn:A; [|reflexivity].
  apply Nat.ltb_lt in A.
  destruct (i <? k)%nat eqn:B.
  - apply Nat.ltb_lt in B.
    rewrite nth_error_app1 by (rewrite repeat_length; exact B).
    apply nth_error_repeat. exact B.
  - apply Nat.ltb_ge in B.
    rewrite nth_error_app2 by (rewrite repeat_length; exact B).
    rewrite repeat_length, nth_error_map. reflexivity.
Qed.

Lemma nth_error_perc_change (k : nat) (l : list Q) (i : nat) :
  nth_error (perc_change k l) i =
  match nth_error l i with
  | None => None
  | Some x =>
      if (i <? k)%nat then Some None
      else match nth_error l (i - k) with
           | Some prev =>
               Some (if Qeq_bool prev 0 then None
                     else Some ((x - prev) / prev))
           | None => Some None
           end
  end.
Proof.
  unfold perc_change. rewrite nth_error_map.
  destruct (nth_error l i) as [x|] eqn:E.
  - assert (Hi : (i < length l)%nat)
      by (apply nth_error_Some; rewrite E; discriminate).
    assert (Hs : nth_error (shift k l) i
                 = if (i <? k)%nat then Some None
                   else option_map Some (nth_error l (i - k))).
    { rewrite nth_error_shift.
      replace (i <? length l)%nat with true
        by (symmetry; apply Nat.ltb_lt; exact Hi).
      reflexivity. }
    destruct (i <? k)%nat.
    + rewrite (PipelineProps.nth_error_combine l _ i E Hs). reflexivity.
    + destruct (nth_error l (i - k)) as [prev|] eqn:Ep.
      * rewrite (PipelineProps.nth_error_combine l _ i E Hs). reflexivity.
      * apply nth_error_None in Ep. lia.
  - replace (nth_error (combine l (shift k l)) i) with
      (@None (Q * option Q)); [reflexivity|].
    symmetry. apply nth_error_None. rewrite length_combine, length_shift.
    apply nth_error_None in E. lia.
Qed.

(** X16.  The percentage-change columns (lag 60, 1440 and 10080 rows) have
    one entry per row.  The first [lag] entries are NaN, so a frame of at
    most [lag] rows gives an all-NaN column; from row [lag] on, an entry
    whose lagged close [prev] is not zero is [(close - prev) / prev]. *)
Theorem perc_change_entries (k : nat) (close : list Q) :
  length (perc_change k close) = length close /\
  (forall i, (i < k)%nat -> (i < length close)%nat ->
             nth_error (perc_change k close) i = Some None) /\
  (forall i x prev,
     (k <= i)%nat ->
     nth_error close i = Some x ->
     nth_error close (i - k) = Some prev ->
     ~ prev == 0 ->
     nth_error (perc_change k close) i = Some (Some ((x - prev) / prev))).
Proof.
  split; [|split].
  - unfold perc_change. rewrite length_map, length_combine, length_shift. lia.
  - intros i Hk Hi. rewrite nth_error_perc_change.
    destruct (nth_error close i) eqn:E;
      [|apply nth_error_None in E; lia].
    replace (i <? k)%nat with true by (symmetry; apply Nat.ltb_lt; exact Hk).
    reflexivity.
  - intros i x prev Hk Hx Hp Hz. rewrite nth_error_perc_change, Hx.
    replace (i <? k)%nat with false by (symmetry; apply Nat.ltb_ge; exact Hk).
    rewrite Hp.
    replace (Qeq_bool prev 0) with false; [reflexivity|].
    symmetry. apply not_true_iff_false. intro E.
    apply Qeq_bool_iff in E. exact (Hz E).
Qed.



(** Closes 100, 110, 90 with a lag of one row: NaN, then 0.1, then the
    change from 110 to 90. *)
Lemma perc_change_entries_witness :
  nth_error (perc_change 1 [100; 110; 90]) 0 = Some None /\
  nth_error (perc_change 1 [100; 110; 90]) 2
    = Some (Some ((90 - 110) / 110)).
Proof.
  destruct (perc_change_entries 1 [100; 110; 90]) as (_ & Hnan & Hval).
  split.
  - apply Hnan; cbn; lia.
  - apply (Hval 2%nat 90 110); [lia | reflexivity | reflexivity | discriminate].
Defined.

(** ** Exponential moving average *)





Lemma ewm_from_no_decay (decay : Q) (l : list Q) :
  decay == 0 ->
  forall num den, Forall2 Qeq (ewm_from decay num den l) l.
Proof.
  intro E. induction l as [|x l IH]; intros num den; cbn [ewm_from];
    constructor.
  - rewrite E. field.
  - apply IH.
Qed.

(** X19.  The first entry of the exponential moving average is the first
    close, whatever the window; with a window of 1 the whole average is
    the close series itself. *)
Theorem ema_first_entry_and_window_one (df : DataFrame) :
  (forall window r rest, df = r :: rest ->
     exists y ys, get_ema_close df window = y :: ys /\ y == Close r) /\
  Forall2 Qeq (get_ema_close df 1) (map Close df).
Proof.
  split.
  - intros window r rest E. subst df. unfold get_ema_close, ewm_mean.
    cbn [map ewm_from]. eexists. eexists. split; [reflexivity|]. field.
  - unfold get_ema_close, ewm_mean. apply ewm_from_no_decay.
    unfold alpha. reflexivity.
Qed.

(** ** Volume since the start of the day *)

Lemma volume_pipeline_one_pass (df : VolumeFrame) : forall c o acc,
  same_entry (option_map (fun x => c - x) o) acc ->
  same_column
    (map (fun p => match snd p with
                   | Some x => Some (fst p - x)
                   | None => None
                   end)
         (combine (cumsum_from c (map snd df))
                  (ffill_from o
                     (map (fun p : bool * Q =>
                             if fst p then Some (snd p) else None)
                          (combine (map (fun r => day_start (fst r)) df)
                                   (cumsum_from c (map snd df)))))))
    (since_day_start acc df).
Proof.
  induction df as [|[t v] df IH]; intros c o acc H; [constructor|].
  cbn [map snd fst cumsum_from combine since_day_start].
  destruct (day_start t).
  - cbn [ffill_from combine map snd fst]. constructor.
    + cbn. lra.
    + apply IH. cbn. lra.
  - cbn [ffill_from combine map snd fst]. constructor.
    + destruct o as [x|], acc as [a|]; cbn in *; try contradiction; try exact I.
      lra.
    + apply IH.
      destruct o as [x|], acc as [a|]; cbn in *; try contradiction; try exact I.
      lra.
Qed.


Lemma same_column_nth (a b : column) :
  same_column a b ->
  forall i y, nth_error b i = Some y ->
  exists x, nth_error a i = Some x /\ same_entry x y.
Proof.
  induction 1 as [|x y a b Hxy Hab IH]; intros i z Hz.
  - destruct i; discriminate.
  - destruct i as [|i]; cbn in *.
    + inversion Hz; subst. exists x. split; [reflexivity | exact Hxy].
    + apply IH, Hz.
Qed.

Lemma since_day_start_at_start (df : VolumeFrame) : forall acc i t v,
  nth_error df i = Some (t, v) -> day_start t = true ->
  nth_error (since_day_start acc df) i = Some (Some 0).
Proof.
  induction df as [|[t' v'] df IH]; intros acc i t v Hi Ht;
    [destruct i; discriminate|].
  destruct i as [|i]; cbn in *.
  - inversion Hi; subst. rewrite Ht. reflexivity.
  - apply (IH _ i t v Hi Ht).
Qed.

Lemma since_day_start_before (df : VolumeFrame) : forall i,
  (i < length df)%nat ->
  (forall j t v, (j <= i)%nat -> nth_error df j = Some (t, v) ->
                 day_start t = false) ->
  nth_error (since_day_start None df) i = Some None.
Proof.
  induction df as [|[t v] df IH]; intros i Hi H; [cbn in Hi; lia|].
  cbn [since_day_start].
  rewrite (H 0%nat t v (Nat.le_0_l i) eq_refl). cbn [option_map].
  destruct i as [|i]; [reflexivity|]. cbn [nth_error].
  apply IH; [cbn in Hi; lia|].
  intros j t' v' Hj Hn. apply (H (S j) t' v'); [lia | exact Hn].
Qed.

(** X21.  On a day-start row (hour 0, minute 0) the 24-hour volume is 0:
    the volume of the day's first candle is not counted.  On every row
    before the first day-start row of the frame the 24-hour volume is
    NaN. *)
Theorem volume_at_and_before_day_start (df : VolumeFrame) (i : nat) :
  (forall t v, nth_error df i = Some (t, v) -> day_start t = true ->
     exists q, nth_error (get_24h_volume df) i = Some (Some q) /\ q == 0) /\
  ((i < length df)%nat ->
   (forall j t v, (j <= i)%nat -> nth_error df j = Some (t, v) ->
                  day_start t = false) ->
   nth_error (get_24h_volume df) i = Some None).
Proof.
  assert (R : same_column (get_24h_volume df) (since_day_start None df)).
  { unfold get_24h_volume. cbv zeta. apply volume_pipeline_one_pass. exact I. }
  split.
  - intros t v Hi Ht.
    destruct (same_column_nth R i
                (since_day_start_at_start df None i Hi Ht)) as [x [Hx Hs]].
    destruct x as [q|]; [|destruct Hs]. exists q. split; assumption.
  - intros Hi H.
    destruct (same_column_nth R i (since_day_start_before df Hi H))
      as [x [Hx Hs]].
    destruct x as [q|]; [destruct Hs | exact Hx].
Qed.

(** Candles at 23:59, 00:00 and 00:01 with volumes 5, 7 and 3. *)
Lemma volume_at_and_before_day_start_witness :
  (exists q,
     nth_error (get_24h_volume [(86340000%Z, 5); (86400000%Z, 7);
                                (86460000%Z, 3)]) 1 = Some (Some q)
     /\ q == 0) /\
  nth_error (get_24h_volume [(86340000%Z, 5); (86400000%Z, 7);
                             (86460000%Z, 3)]) 0 = Some None.
Proof.
  split.
  - apply (proj1 (volume_at_and_before_day_start
                    [(86340000%Z, 5); (86400000%Z, 7); (86460000%Z, 3)] 1)
                 86400000%Z 7); reflexivity.
  - apply (proj2 (volume_at_and_before_day_start
                    [(86340000%Z, 5); (86400000%Z, 7); (86460000%Z, 3)] 0)).
    + cbn. lia.
    + intros j t v Hj Hn. assert (j = 0%nat) by lia. subst j.
      cbn in Hn. inversion Hn. reflexivity.
Defined.


End DataManagerProps.

(** * Properties of the market data merge *)

Module ScraperProps.
Import Scraper.

Section DictFacts.
Context {K V : Type} (eqb : K -> K -> bool).
Hypothesis eqb_sym : forall a b, eqb a b = true -> eqb b a = true.
Hypothesis eqb_trans :
  forall a b c, eqb a b = true -> eqb b c = true -> eqb a c = true.

Lemma dict_get_raises (d : list (K * V)) (k : K) (e : Exception) :
  dict_get eqb d k = Throw e -> e = KeyError.
Proof.
  induction d as [|[k0 v0] d IH]; cbn.
  - intro H. inversion H. reflexivity.
  - destruct (eqb k k0); [discriminate | exact IH].
Qed.

Lemma get_set_same (d : list (K * V)) (k k' : K) (v : V) :
  eqb k' k = true -> dict_get eqb (dict_set eqb d k v) k' = Return v.
Proof.
  intro H. induction d as [|[k0 v0] d IH]; cbn.
  - rewrite H. reflexivity.
  - destruct (eqb k k0) eqn:E; cbn.
    + rewrite (eqb_trans H E). reflexivity.
    + destruct (eqb k' k0) eqn:E'; [|exact IH].
      rewrite (eqb_trans (eqb_sym H) E') in E. discriminate.
Qed.

Lemma get_set_other (d : list (K * V)) (k k' : K) (v : V) :
  eqb k' k = false ->
  dict_get eqb (dict_set eqb d k v) k' = dict_get eqb d k'.
Proof.
  intro H. induction d as [|[k0 v0] d IH]; cbn.
  - rewrite H. reflexivity.
  - destruct (eqb k k0) eqn:E; cbn.
    + destruct (eqb k' k0) eqn:E'; [|reflexivity].
      rewrite (eqb_trans E' (eqb_sym E)) in H. discriminate.
    + destruct (eqb k' k0); [reflexivity | exact IH].
Qed.

Lemma find_snoc {A} (P : A -> bool) (l : list A) (x : A) :
  find P (l ++ [x]) =
  match find P l with
  | Some y => Some y
  | None => if P x then Some x else None
  end.
Proof.
  induction l as [|y l IH]; cbn; [reflexivity|].
  destruct (P y); [reflexivity | exact IH].
Qed.

(** After [d.update(other)] a key holds the value of the last item of
    [other] that carries it, and its old value if there is none. *)
Lemma get_update (other : list (K * V)) : forall (d : list (K * V)) (k : K),
  dict_get eqb (dict_update eqb d other) k =
  match find (fun p => eqb k (fst p)) (rev other) with
  | Some p => Return (snd p)
  | None => dict_get eqb d k
  end.
Proof.
  induction other as [|[k0 v0] other IH]; intros d k; [reflexivity|].
  unfold dict_update in *. cbn [fold_left rev fst snd].
  rewrite IH, find_snoc.
  destruct (find (fun p => eqb k (fst p)) (rev other)); [reflexivity|].
  cbn [fst snd]. destruct (eqb k k0) eqn:E.
  - apply get_set_same, E.
  - apply get_set_other, E.
Qed.

Lemma keys_set (d : list (K * V)) (k : K) (v : V) :
  map fst (dict_set eqb d k v) = map fst d \/
  map fst (dict_set eqb d k v) = map fst d ++ [k].
Proof.
  induction d as [|[k0 v0] d IH]; cbn.
  - right. reflexivity.
  - destruct (eqb k k0); cbn; [left; reflexivity|].
    destruct IH as [E | E]; rewrite E; [left | right]; reflexivity.
Qed.

End DictFacts.

Lemma string_eqb_sym (a b : String.string) :
  String.eqb a b = true -> String.eqb b a = true.
Proof. rewrite String.eqb_sym. auto. Qed.

Lemma string_eqb_trans (a b c : String.string) :
  String.eqb a b = true -> String.eqb b c = true -> String.eqb a c = true.
Proof. rewrite !String.eqb_eq. congruence. Qed.

Lemma json_eqb_sym (a b : json) : json_eqb a b = true -> json_eqb b a = true.
Proof.
  destruct a, b; cbn; try discriminate; auto;
    try apply string_eqb_sym; try apply Qeq_bool_sym.
  rewrite Nat.eqb_sym. auto.
Qed.

Lemma json_eqb_trans (a b c : json) :
  json_eqb a b = true -> json_eqb b c = true -> json_eqb a c = true.
Proof.
  destruct a, b, c; cbn; try discriminate; auto;
    try apply string_eqb_trans; try apply Qeq_bool_trans.
  intros H1 H2. apply Nat.eqb_eq in H1, H2. subst. apply Nat.eqb_refl.
Qed.

Lemma json_eqb_string (coin : String.string) (x : json) :
  json_eqb (JString coin) x = true <-> x = JString coin.
Proof.
  destruct x; cbn; split; try discriminate.
  - intro E. apply String.eqb_eq in E. subst. reflexivity.
  - intro E. inversion E. apply String.eqb_refl.
Qed.

(** ** List comprehensions that may raise *)

Lemma map_outcome_ok {A B} (f : A -> outcome B) (l : list A) : forall ys,
  map_outcome f l = Return ys -> Forall2 (fun x y => f x = Return y) l ys.
Proof.
  induction l as [|x l IH]; intros ys H; cbn in H.
  - inversion H. constructor.
  - destruct (f x) as [y|] eqn:E; cbn in H; [|discriminate].
    destruct (map_outcome f l) as [ys'|]; cbn in H; [|discriminate].
    inversion H; subst. constructor; [exact E | apply IH; reflexivity].
Qed.

Lemma map_outcome_raises {A B} (f : A -> outcome B) (l : list A) (e : Exception) :
  map_outcome f l = Throw e -> exists x, In x l /\ f x = Throw e.
Proof.
  induction l as [|x l IH]; cbn; [discriminate|].
  destruct (f x) as [y|e'] eqn:E; cbn.
  - destruct (map_outcome f l) as [ys|e'']; cbn; [discriminate|].
    intro H. inversion H; subst.
    destruct (IH eq_refl) as [z [Hz Ez]]. exists z. split; [right|]; assumption.
  - intro H. inversion H; subst. exists x. split; [left; reflexivity | exact E].
Qed.

Lemma map_outcome_defined {A B} (f : A -> outcome B) (l : list A) :
  (forall x, In x l -> exists y, f x = Return y) ->
  exists ys, map_outcome f l = Return ys.
Proof.
  induction l as [|x l IH]; intro H; cbn.
  - eexists. reflexivity.
  - destruct (H x (or_introl eq_refl)) as [y E]. rewrite E. cbn.
    destruct IH as [ys E']; [intros; apply H; right; assumption|].
    rewrite E'. eexists. reflexivity.
Qed.

(** ** The markets dictionary *)

Lemma Forall2_rev {A B} (R : A -> B -> Prop) (l : list A) (l' : list B) :
  Forall2 R l l' -> Forall2 R (rev l) (rev l').
Proof.
  induction 1; cbn; [constructor|].
  apply Forall2_app; [assumption | constructor; [assumption | constructor]].
Qed.

Lemma find_related {A B} (R : A -> B -> Prop) (P : A -> bool) (P' : B -> bool)
      (g : B -> A) (l : list A) (l' : list B) :
  Forall2 R l l' ->
  (forall x y, R x y -> P x = P' y /\ g y = x) ->
  find P l = option_map g (find P' l').
Proof.
  intros H HR. induction H as [|x y l l' Hxy _ IH]; cbn; [reflexivity|].
  destruct (HR x y Hxy) as [EP Eg]. rewrite EP.
  destruct (P' y); cbn; [rewrite Eg; reflexivity | exact IH].
Qed.

Lemma id_pair_ok (item : record) (p : json * record) :
  id_pair item = Return p ->
  dict_get String.eqb item id_key = Return (fst p) /\ snd p = item.
Proof.
  unfold id_pair.
  destruct (dict_get String.eqb item id_key) as [id|]; cbn;
    [|discriminate].
  intro H. inversion H; subst. split; reflexivity.
Qed.

Lemma market_dict_lookup (resp : list record) (pairs : list (json * record))
      (coin : String.string) :
  map_outcome id_pair resp = Return pairs ->
  dict_get json_eqb (dict_of_pairs json_eqb pairs) (JString coin) =
  match item_of resp coin with
  | Some item => Return item
  | None => Throw KeyError
  end.
Proof.
  intro H. apply map_outcome_ok in H.
  unfold dict_of_pairs.
  rewrite (@get_update _ _ json_eqb json_eqb_sym json_eqb_trans).
  unfold item_of.
  rewrite (@find_related _ _ (fun item p => id_pair item = Return p)
             (has_id coin) (fun p => json_eqb (JString coin) (fst p)) snd
             _ _ (Forall2_rev H)).
  - destruct (find _ (rev pairs)); reflexivity.
  - intros item p E. apply id_pair_ok in E. destruct E as [E1 E2].
    unfold has_id. rewrite E1. split; [reflexivity | exact E2].
Qed.

Lemma item_of_some (resp : list record) (coin : String.string) :
  (exists item, item_of resp coin = Some item) <->
  (exists item, In item resp /\
                dict_get String.eqb item id_key = Return (JString coin)).
Proof.
  unfold item_of. split.
  - intros [item H]. apply find_some in H. destruct H as [Hin Hid].
    exists item. split; [apply in_rev; exact Hin|].
    unfold has_id in Hid.
    destruct (dict_get String.eqb item id_key) as [id|];
      [|discriminate].
    apply json_eqb_string in Hid. subst id. reflexivity.
  - intros [item [Hin Hid]].
    destruct (find (has_id coin) (rev resp)) as [it|] eqn:F;
      [exists it; reflexivity|].
    pose proof (find_none _ _ F item (proj1 (in_rev _ _) Hin)) as N.
    unfold has_id in N. rewrite Hid in N.
    rewrite (proj2 (json_eqb_string coin (JString coin)) eq_refl) in N.
    discriminate.
Qed.

(** ** The merge *)

Lemma pairs_ids (resp : list record) (pairs : list (json * record)) :
  map_outcome id_pair resp = Return pairs ->
  (forall item, In item resp ->
     exists id, In (id, item) pairs /\
                dict_get String.eqb item id_key = Return id) /\
  (forall id item, In (id, item) pairs ->
     In item resp /\ dict_get String.eqb item id_key = Return id).
Proof.
  intro H. apply map_outcome_ok in H.
  induction H as [|x y l l' Hxy _ [IH1 IH2]].
  - split; [intros item [] | intros id item []].
  - apply id_pair_ok in Hxy. destruct y as [id0 it0]. cbn in Hxy.
    destruct Hxy as [E1 E2]. subst it0. split.
    + intros item [E | Hin].
      * subst item. exists id0. split; [left; reflexivity | exact E1].
      * destruct (IH1 item Hin) as [id [Hp Hg]].
        exists id. split; [right; exact Hp | exact Hg].
    + intros id item [E | Hin].
      * inversion E; subst. split; [left; reflexivity | exact E1].
      * destruct (IH2 id item Hin) as [Hr Hg].
        split; [right; exact Hr | exact Hg].
Qed.

Lemma compound_id_iff (resp : list record) (pairs : list (json * record)) :
  map_outcome id_pair resp = Return pairs ->
  existsb (fun p => is_compound (fst p)) pairs = true <->
  exists item id, In item resp /\
                  dict_get String.eqb item id_key = Return id /\
                  is_compound id = true.
Proof.
  intro H. destruct (pairs_ids _ H) as [P1 P2].
  rewrite existsb_exists. split.
  - intros [[id item] [Hin Hc]]. cbn in Hc.
    destruct (P2 id item Hin) as [Hr Hg]. exists item, id. auto.
  - intros (item & id & Hin & Hg & Hc).
    destruct (P1 item Hin) as [id' [Hp Hg']].
    rewrite Hg in Hg'. inversion Hg'; subst id'.
    exists (id, item). split; [exact Hp | exact Hc].
Qed.

Lemma merge_ok (resp : list record) (data : list (String.string * record))
      (keys : list String.string) (out : list (String.string * record)) :
  get_current_market_data resp data keys = Return out ->
  (forall item, In item resp ->
     exists id, dict_get String.eqb item id_key = Return id /\
                is_compound id = false) /\
  Forall2 (fun entry o =>
             exists item, item_of resp (fst entry) = Some item /\
                          o = merged keys entry item)
          data out.
Proof.
  unfold get_current_market_data.
  destruct (map_outcome id_pair resp) as [pairs|] eqn:Ep; cbn [obind];
    [|discriminate].
  destruct (existsb (fun p => is_compound (fst p)) pairs) eqn:Ex;
    cbn [obind]; [discriminate|].
  match goal with
  | |- context [map_outcome ?f data] =>
      destruct (map_outcome f data) as [combined|] eqn:Ec; cbn [obind];
        [|discriminate]
  end.
  intro H. inversion H; subst out; clear H. split.
  - intros item Hin. destruct (pairs_ids _ Ep) as [P1 _].
    destruct (P1 item Hin) as [id [Hp Hg]]. exists id. split; [exact Hg|].
    destruct (is_compound id) eqn:C; [|reflexivity].
    assert (existsb (fun p => is_compound (fst p)) pairs = true)
      by (apply (compound_id_iff _ Ep); exists item, id; auto).
    congruence.
  - apply map_outcome_ok in Ec.
    induction Ec as [|entry c data combined Hc _ IH]; cbn [map];
      constructor; [|exact IH].
    rewrite (market_dict_lookup _ (fst entry) Ep) in Hc.
    destruct (item_of resp (fst entry)) as [item|] eqn:Ei; cbn [obind] in Hc;
      [|discriminate].
    inversion Hc; subst c. exists item. split; [exact Ei | reflexivity].
Qed.

Lemma merge_defined (resp : list record)
      (data : list (String.string * record)) (keys : list String.string) :
  (forall item, In item resp ->
     exists id, dict_get String.eqb item id_key = Return id /\
                is_compound id = false) ->
  (forall entry, In entry data ->
     exists item, item_of resp (fst entry) = Some item) ->
  exists out, get_current_market_data resp data keys = Return out.
Proof.
  intros Hid Hdata. unfold get_current_market_data.
  destruct (@map_outcome_defined _ _ id_pair resp) as [pairs Ep].
  { intros item Hin. destruct (Hid item Hin) as [id [E _]].
    unfold id_pair. rewrite E. eexists. reflexivity. }
  rewrite Ep. cbn [obind].
  destruct (existsb (fun p => is_compound (fst p)) pairs) eqn:Ex.
  { apply (compound_id_iff _ Ep) in Ex.
    destruct Ex as (item & id & Hin & Hg & Hc).
    destruct (Hid item Hin) as [id' [Hg' Hc']].
    rewrite Hg in Hg'. inversion Hg'; subst id'. congruence. }
  cbn [obind].
  match goal with
  | |- context [map_outcome ?f data] =>
      destruct (@map_outcome_defined _ _ f data) as [combined Ec]
  end.
  { intros entry Hin. destruct (Hdata entry Hin) as [item E]. cbv beta.
    rewrite (market_dict_lookup _ (fst entry) Ep). unfold record in *.
    rewrite E. eexists. reflexivity. }
  rewrite Ec. eexists. reflexivity.
Qed.

Lemma merge_type_error (resp : list record)
      (data : list (String.string * record)) (keys : list String.string) :
  get_current_market_data resp data keys = Throw TypeError <->
  (forall item, In item resp ->
     exists id, dict_get String.eqb item id_key = Return id) /\
  (exists item id, In item resp /\
                   dict_get String.eqb item id_key = Return id /\
                   is_compound id = true).
Proof.
  unfold get_current_market_data.
  destruct (map_outcome id_pair resp) as [pairs|e1] eqn:Ep; cbn [obind].
  - destruct (existsb (fun p => is_compound (fst p)) pairs) eqn:Ex;
      cbn [obind].
    + split; [intros _ | reflexivity]. split.
      * intros item Hin. destruct (pairs_ids _ Ep) as [P1 _].
        destruct (P1 item Hin) as [id [_ Hg]]. exists id. exact Hg.
      * apply (compound_id_iff _ Ep). exact Ex.
    + split.
      * match goal with
        | |- context [map_outcome ?f data] =>
            destruct (map_outcome f data) as [combined|e2] eqn:Ec;
              cbn [obind]; [discriminate|]
        end.
        intro H. inversion H; subst e2. exfalso.
        apply map_outcome_raises in Ec. destruct Ec as [entry [_ He]].
        cbv beta in He.
        rewrite (market_dict_lookup _ (fst entry) Ep) in He.
        destruct (item_of resp (fst entry)); cbn [obind] in He;
          discriminate.
      * intros [_ Hc]. apply (compound_id_iff _ Ep) in Hc. congruence.
  - split.
    + intro H. inversion H; subst e1. exfalso.
      apply map_outcome_raises in Ep. destruct Ep as [item [_ He]].
      unfold id_pair in He.
      destruct (dict_get String.eqb item id_key) as [id|e'] eqn:Eg;
        cbn [obind] in He; [discriminate|].
      inversion He; subst e'.
      pose proof (dict_get_raises _ _ _ Eg). discriminate.
    + intros [Hall _]. exfalso.
      apply map_outcome_raises in Ep. destruct Ep as [item [Hin He]].
      destruct (Hall item Hin) as [id Hg]. unfold id_pair in He.
      rewrite Hg in He. discriminate.
Qed.

(** X22.  Given the two responses, [get_current_market_data] returns
    exactly when every record of the markets response has an ['id'] field
    that is not an array or an object, and every coin id of the price
    response is the ['id'] of some record of the markets response.  It
    raises [TypeError] exactly when every record has an ['id'] and one of
    them is an array or an object; in every other case it raises
    [KeyError]. *)
Theorem merge_outcome (resp : list record)
        (data : list (String.string * record)) (keys : list String.string) :
  ((exists out, get_current_market_data resp data keys = Return out) <->
   (forall item, In item resp ->
      exists id, dict_get String.eqb item id_key = Return id /\
                 is_compound id = false) /\
   (forall coin, In coin (map fst data) ->
      exists item, In item resp /\
                   dict_get String.eqb item id_key = Return (JString coin)))
  /\
  (get_current_market_data resp data keys = Throw TypeError <->
   (forall item, In item resp ->
      exists id, dict_get String.eqb item id_key = Return id) /\
   (exists item id, In item resp /\
                    dict_get String.eqb item id_key = Return id /\
                    is_compound id = true)).
Proof.
  split; [|apply merge_type_error]. split.
  - intros [out H]. destruct (merge_ok _ _ _ H) as [Hid F].
    split; [exact Hid|]. intros coin Hin.
    apply in_map_iff in Hin. destruct Hin as [entry [E Hin]]. subst coin.
    apply item_of_some. clear H.
    induction F as [|x y l l' [item [Hi _]] _ IH]; [destruct Hin|].
    destruct Hin as [E | Hin]; [subst x; exists item; exact Hi | exact (IH Hin)].
  - intros [Hid Hcoin]. apply merge_defined; [exact Hid|].
    intros entry Hin. apply item_of_some, Hcoin, in_map, Hin.
Qed.

(** X23.  The returned object has the coin ids of the price response, in
    the same order, and every field of every returned record is one of
    [output_keys]. *)
Theorem merge_shape (resp : list record)
        (data : list (String.string * record)) (keys : list String.string)
        (out : list (String.string * record)) :
  get_current_market_data resp data keys = Return out ->
  map fst out = map fst data /\
  (forall coin rec field,
     In (coin, rec) out -> In field (map fst rec) -> In field keys).
Proof.
  intro H. destruct (merge_ok _ _ _ H) as [_ F]. clear H. split.
  - induction F as [|x y l l' [item [_ E]] _ IH]; cbn; [reflexivity|].
    rewrite IH, E. reflexivity.
  - intros coin rec field Hin Hf.
    induction F as [|x y l l' [item [_ E]] _ IH]; [destruct Hin|].
    destruct Hin as [Ey | Hin]; [|exact (IH Hin)].
    subst y. unfold merged in Ey. inversion Ey; subst.
    apply in_map_iff in Hf. destruct Hf as [[k v] [Ek Hkv]]. cbn in Ek.
    subst k. apply filter_In in Hkv. destruct Hkv as [_ Hex]. cbn in Hex.
    apply existsb_exists in Hex. destruct Hex as [k [Hk Ek]].
    apply String.eqb_eq in Ek. subst k. exact Hk.
Qed.

Lemma get_filter (keys : list String.string) (d : record) (f : String.string) :
  dict_get String.eqb
           (filter (fun kv => existsb (String.eqb (fst kv)) keys) d) f =
  if existsb (String.eqb f) keys then dict_get String.eqb d f
  else Throw KeyError.
Proof.
  induction d as [|[k v] d IH]; cbn [filter fst].
  - destruct (existsb (String.eqb f) keys); reflexivity.
  - destruct (existsb (String.eqb k) keys) eqn:Xk; cbn [dict_get];
      destruct (String.eqb f k) eqn:E; try exact IH.
    + apply String.eqb_eq in E. subst k. rewrite Xk. reflexivity.
    + apply String.eqb_eq in E. subst k. rewrite IH, Xk. reflexivity.
Qed.

Lemma find_last_distinct (d : record) (f : String.string) (r : outcome json) :
  NoDup (map fst d) ->
  match find (fun kv => String.eqb f (fst kv)) (rev d) with
  | Some kv => Return (snd kv)
  | None => r
  end =
  match dict_get String.eqb d f with
  | Return v => Return v
  | Throw _ => r
  end.
Proof.
  induction d as [|[k v] d IH]; intro Hnd; [reflexivity|].
  inversion Hnd as [|? ? Hk Hd]; subst.
  cbn [rev dict_get]. rewrite find_snoc. cbn [fst snd].
  destruct (String.eqb f k) eqn:E.
  - apply String.eqb_eq in E. subst k.
    destruct (find (fun kv => String.eqb f (fst kv)) (rev d)) as [kv|] eqn:F;
      [|reflexivity].
    apply find_some in F. destruct F as [Hin Ef].
    apply String.eqb_eq in Ef. exfalso. apply Hk. rewrite Ef.
    apply in_map. apply in_rev. exact Hin.
  - rewrite <- (IH Hd).
    destruct (find (fun kv => String.eqb f (fst kv)) (rev d)); reflexivity.
Qed.

(** X24.  In the record returned for a coin, a field of [output_keys]
    holds the value of the markets record of that coin when that record
    has the field, and otherwise the value of the price response; a field
    outside [output_keys], or in neither source, is absent.  (Records of
    the markets response have pairwise different field names.) *)
Theorem merge_values (resp : list record)
        (data : list (String.string * record)) (keys : list String.string)
        (out : list (String.string * record))
        (i : nat) (coin : String.string) (price : record) :
  get_current_market_data resp data keys = Return out ->
  (forall item, In item resp -> NoDup (map fst item)) ->
  nth_error data i = Some (coin, price) ->
  exists item rec,
    item_of resp coin = Some item /\
    nth_error out i = Some (coin, rec) /\
    forall field,
      dict_get String.eqb rec field =
      if existsb (String.eqb field) keys
      then match dict_get String.eqb item field with
           | Return v => Return v
           | Throw _ => dict_get String.eqb price field
           end
      else Throw KeyError.
Proof.
  intros H Hnd Hi. destruct (merge_ok _ _ _ H) as [_ F]. clear H.
  revert i Hi. induction F as [|x y l l' [item [Hitem E]] _ IH]; intros i Hi.
  - destruct i; discriminate.
  - destruct i as [|i]; cbn [nth_error] in *; [|exact (IH i Hi)].
    inversion Hi; subst x. cbn [fst] in Hitem.
    exists item. eexists. split; [exact Hitem|]. rewrite E.
    split; [reflexivity|]. intro field. cbn [snd].
    rewrite get_filter.
    destruct (existsb (String.eqb field) keys); [|reflexivity].
    rewrite (@get_update _ _ String.eqb string_eqb_sym string_eqb_trans).
    apply find_last_distinct. apply Hnd.
    unfold item_of in Hitem. apply find_some in Hitem.
    apply in_rev. exact (proj1 Hitem).
Qed.

(** The sample: one coin, with fields from both responses. *)
Lemma merge_shape_witness :
  exists out,
    get_current_market_data sample_markets sample_prices sample_keys
      = Return out /\
    map fst out = map fst sample_prices /\
    (forall coin rec field,
       In (coin, rec) out -> In field (map fst rec) -> In field sample_keys).
Proof.
  destruct (get_current_market_data sample_markets sample_prices sample_keys)
    as [out|] eqn:E; [|vm_compute in E; discriminate].
  exists out. split; [reflexivity|].
  exact (@merge_shape sample_markets sample_prices sample_keys out E).
Defined.

Lemma merge_values_witness :
  exists item rec,
    item_of sample_markets sample_coin = Some item /\
    nth_error [merged sample_keys (sample_coin, sample_price) sample_item] 0
      = Some (sample_coin, rec) /\
    forall field,
      dict_get String.eqb rec field =
      if existsb (String.eqb field) sample_keys
      then match dict_get String.eqb item field with
           | Return v => Return v
           | Throw _ => dict_get String.eqb sample_price field
           end
      else Throw KeyError.
Proof.
  apply (@merge_values sample_markets sample_prices sample_keys
           [merged sample_keys (sample_coin, sample_price) sample_item]
           0 sample_coin sample_price).
  - vm_compute. reflexivity.
  - intros item [E | []]. subst item. cbn.
    repeat constructor; cbn; intuition discriminate.
  - reflexivity.
Defined.

End ScraperProps.
